(** * Ruta Segura front-end: the view models of the pages, and what they do

    A shallow embedding of the React pages of the repository:

    - [RutaSegura]        frontend/src/pages/RutaSegura.jsx (the dashboard
                          that loads four datasets with one [Promise.all]);
    - [IndiceSeguridad]   the second [RutaSegura] component, kept in
                          frontend/src/pages/ReportesDelito.jsx after the
                          crime-report page (ranking, tops, comparison);
    - [ReportesDelito]    the crime-report page of the same file;
    - [Siniestros]        the incident page, the component [Siniestros].

    A component's [useState] cells are the fields of a record; a handler is a
    function from the state it is called on to the state it leaves and the
    effects it performs, in order.  An [await] is a point where the outcome of
    the call comes in: a handler takes the outcome of each call it awaits as
    an argument, and where interleavings matter the handler is split into the
    part before the [await] and the part after it. *)

From Stdlib Require Import String Ascii List Bool ZArith QArith.
From Stdlib Require Import DecimalString DecimalPos Lia.
Import ListNotations.

Set Implicit Arguments.

Local Open Scope string_scope.
Local Open Scope list_scope.

(** ** JavaScript values held by the forms *)

Module Js.

(** A JavaScript number: [NaN], an infinity, or a finite value. *)
Inductive JsNumber : Type :=
| NaN
| Infinity (negative : bool)
| Fin (q : Q).

(** The values the drafts and the request bodies hold. *)
Inductive JsVal : Type :=
| JNull
| JStr (s : string)
| JNum (n : JsNumber).

Definition num_of_Z (z : Z) : JsNumber := Fin (inject_Z z).

(** The text of an integer, as [<option value={id}>] writes an id. *)
Definition string_of_Z (z : Z) : string :=
  NilZero.string_of_int (Z.to_int z).

Definition string_is_empty (s : string) : bool :=
  match s with
  | EmptyString => true
  | String _ _ => false
  end.

(** Truthiness of a number: [NaN] and zero are falsy. *)
Definition truthy_num (n : JsNumber) : bool :=
  match n with
  | NaN => false
  | Infinity _ => true
  | Fin q => negb (Qeq_bool q 0)
  end.

(** Truthiness: [null], the empty string, [NaN] and zero are falsy. *)
Definition truthy (v : JsVal) : bool :=
  match v with
  | JNull => false
  | JStr s => negb (string_is_empty s)
  | JNum n => truthy_num n
  end.

(** [a || b] *)
Definition or_else (a b : JsVal) : JsVal := if truthy a then a else b.

(** [a || b] on numbers *)
Definition or_else_num (a b : JsNumber) : JsNumber :=
  if truthy_num a then a else b.

(** [a || b] on strings *)
Definition or_else_str (a b : string) : string :=
  if string_is_empty a then b else a.

(** [typeof v === 'number'] *)
Definition is_number (v : JsVal) : bool :=
  match v with
  | JNum _ => true
  | _ => false
  end.

Section Conversions.

(** The host's conversion of a string to a number ([StringToNumber] of
    the language: what [Number(s)] computes on a string). *)
Variable StringToNumber : string -> JsNumber.

(** [Number(v)] *)
Definition Number (v : JsVal) : JsNumber :=
  match v with
  | JNull => Fin 0
  | JStr s => StringToNumber s
  | JNum n => n
  end.

End Conversions.

(** What an awaited call settles to. *)
Inductive Settled (A E : Type) : Type :=
| Resolved (a : A)
| Rejected (e : E).
Arguments Resolved {A E} a.
Arguments Rejected {A E} e.

Definition is_rejected {A E : Type} (r : Settled A E) : bool :=
  match r with
  | Resolved _ => false
  | Rejected _ => true
  end.

(** What a handler does to the world outside the component's state, with
    [R] the requests the page sends. *)
Inductive Effect (R : Type) : Type :=
| Request (r : R)
| Alert (msg : string)
| ConsoleError (label : string)
| ConsoleLog (label : string)
| ValidationMessage (field : string)
| ScrollToTop.
Arguments Request {R} r.
Arguments Alert {R} msg.
Arguments ConsoleError {R} label.
Arguments ConsoleLog {R} label.
Arguments ValidationMessage {R} field.
Arguments ScrollToTop {R}.

(** The requests among the effects, and the texts of the alerts. *)
Definition requests {R : Type} (es : list (Effect R)) : list R :=
  flat_map (fun e => match e with Request r => [r] | _ => [] end) es.

Definition alerts {R : Type} (es : list (Effect R)) : list string :=
  flat_map (fun e => match e with Alert m => [m] | _ => [] end) es.

(** [a === b] on numbers: [NaN] is equal to nothing, the two zeros are
    equal. *)
Definition num_igual (a b : JsNumber) : bool :=
  match a, b with
  | Fin p, Fin q => Qeq_bool p q
  | Infinity s, Infinity t => Bool.eqb s t
  | _, _ => false
  end.

(** The value [v] of a controlled select against [<option value={id}>]:
    the select shows that option when the text of [v] is the text of the
    id.  For a text that is the text itself; a number has the text of the
    id exactly when it is the id; [null] leaves the select on its own. *)
Definition coincide (v : JsVal) (id : Z) : bool :=
  match v with
  | JNull => false
  | JStr s => String.eqb s (string_of_Z id)
  | JNum n => num_igual n (num_of_Z id)
  end.

End Js.

Import Js.

(** ** The dashboard: frontend/src/pages/RutaSegura.jsx *)

Module RutaSegura.

(** The four reads of [cargarDatos]. *)
Inductive Get : Type :=
| GetEstadisticas        (* /reportes/estadisticas-seguridad *)
| GetTopPeligrosas       (* /reportes/top-avenidas-peligrosas?limite=5 *)
| GetTopSeguras          (* /reportes/top-avenidas-seguras?limite=5 *)
| GetIndice.             (* /reportes/indice-seguridad?orden=peligrosidad *)

Section Dashboard.

(** The bodies of the responses are the backend's: the page stores them
    and hands them to the markup. *)
Variables Estadisticas Avenida Err : Type.

Record State : Type := mkState {
  estadisticas : option Estadisticas;
  topPeligrosas : list Avenida;
  topSeguras : list Avenida;
  todasAvenidas : list Avenida;
  cargando : bool;
  error : option string
}.

Definition initial : State :=
  mkState None [] [] [] true None.

Definition setEstadisticas (v : option Estadisticas) (st : State) : State :=
  mkState v (topPeligrosas st) (topSeguras st) (todasAvenidas st)
          (cargando st) (error st).
Definition setTopPeligrosas (v : list Avenida) (st : State) : State :=
  mkState (estadisticas st) v (topSeguras st) (todasAvenidas st)
          (cargando st) (error st).
Definition setTopSeguras (v : list Avenida) (st : State) : State :=
  mkState (estadisticas st) (topPeligrosas st) v (todasAvenidas st)
          (cargando st) (error st).
Definition setTodasAvenidas (v : list Avenida) (st : State) : State :=
  mkState (estadisticas st) (topPeligrosas st) (topSeguras st) v
          (cargando st) (error st).
Definition setCargando (v : bool) (st : State) : State :=
  mkState (estadisticas st) (topPeligrosas st) (topSeguras st)
          (todasAvenidas st) v (error st).
Definition setError (v : option string) (st : State) : State :=
  mkState (estadisticas st) (topPeligrosas st) (topSeguras st)
          (todasAvenidas st) (cargando st) v.

(** [{ data: { avenidas: [...] } }]: the page reads [res.data.avenidas]. *)
Record AvenidasBody : Type := mkBody { avenidas : list Avenida }.

(** [Promise.all] of the four reads: the four values when every read
    resolves, a rejection as soon as one rejects.  The handler does not
    look at the reason, so the order in which the reads settle is left
    out: the reason kept is the first one in the order of the array. *)
Definition promise_all
    (stats : Settled Estadisticas Err)
    (peligrosas seguras todas : Settled AvenidasBody Err)
  : Settled (Estadisticas * AvenidasBody * AvenidasBody * AvenidasBody) Err :=
  match stats, peligrosas, seguras, todas with
  | Resolved s, Resolved p, Resolved g, Resolved t => Resolved (s, p, g, t)
  | Rejected e, _, _, _ => Rejected e
  | _, Rejected e, _, _ => Rejected e
  | _, _, Rejected e, _ => Rejected e
  | _, _, _, Rejected e => Rejected e
  end.

(** [cargarDatos]: the four requests go out together; the state is
    written after the [await], in the [try], the [catch] or the
    [finally]. *)
Definition cargarDatos
    (stats : Settled Estadisticas Err)
    (peligrosas seguras todas : Settled AvenidasBody Err)
    (st : State) : State * list (Effect Get) :=
  let st := setError None (setCargando true st) in
  let sent := [Request GetEstadisticas; Request GetTopPeligrosas;
               Request GetTopSeguras; Request GetIndice] in
  match promise_all stats peligrosas seguras todas with
  | Resolved (statsRes, peligrosasRes, segurasRes, todasRes) =>
      let st := setEstadisticas (Some statsRes) st in
      let st := setTopPeligrosas (avenidas peligrosasRes) st in
      let st := setTopSeguras (avenidas segurasRes) st in
      let st := setTodasAvenidas (avenidas todasRes) st in
      (setCargando false st, sent)
  | Rejected _ =>
      let st :=
        setError
          (Some "Error al cargar los datos. Por favor, intenta nuevamente.")
          st in
      (setCargando false st,
       sent ++ [ConsoleError "Error al cargar datos:"])
  end.

(** What the component returns: the spinner while loading, the error box
    alone when [error] is set, the page otherwise. *)
Inductive View : Type :=
| Spinner
| ErrorBox (msg : string)
| Page (stats : option Estadisticas)
       (peligrosas seguras todas : list Avenida).

Definition render (st : State) : View :=
  if cargando st then Spinner
  else match error st with
       | Some msg => ErrorBox msg
       | None => Page (estadisticas st) (topPeligrosas st)
                      (topSeguras st) (todasAvenidas st)
       end.

(** The reading of the batch in which each read stands alone: whatever
    the other three do, a read that resolved is in the state afterwards. *)
Definition reads_are_independent : Prop :=
  forall stats peligrosas seguras todas st,
    let st' := fst (cargarDatos stats peligrosas seguras todas st) in
    (forall s, stats = Resolved s -> estadisticas st' = Some s) /\
    (forall p, peligrosas = Resolved p -> topPeligrosas st' = avenidas p) /\
    (forall g, seguras = Resolved g -> topSeguras st' = avenidas g) /\
    (forall t, todas = Resolved t -> todasAvenidas st' = avenidas t).

Definition some_read_rejected
    (stats : Settled Estadisticas Err)
    (peligrosas seguras todas : Settled AvenidasBody Err) : bool :=
  is_rejected stats || is_rejected peligrosas
  || is_rejected seguras || is_rejected todas.

End Dashboard.

Arguments initial {Estadisticas Avenida}.
Arguments Spinner {Estadisticas Avenida}.
Arguments ErrorBox {Estadisticas Avenida} msg.


End RutaSegura.



(** ** The ranking page: the second [RutaSegura] component, in
       frontend/src/pages/ReportesDelito.jsx *)

Module IndiceSeguridad.

(** A street of the index, as the backend sends it and as the fallback of
    [cargarDatos] writes it.  A count or an index that is missing is
    [JNull]. *)
Record Avenida : Type := mkAvenida {
  id : Z;
  nombre : string;
  zona : string;
  total_siniestros : JsVal;
  total_delitos : JsVal;
  indice_peligrosidad : JsVal;
  nivel_riesgo : string
}.

(** The calls to [reportesService]. *)
Inductive Call : Type :=
| GetIndiceSeguridad (orden : string) (limite : option JsNumber)
| GetTopAvenidasSeguras (n : Z)
| GetTopAvenidasPeligrosas (n : Z)
| CompararAvenidas (a b : JsNumber).

(** A body is [{ total, orden, avenidas: [...] }] or the array itself: the
    page takes [response.avenidas || response]. *)
Inductive Body : Type :=
| Envelope (avenidas : list Avenida)
| Bare (avenidas : list Avenida).

Definition avenidas_of (b : Body) : list Avenida :=
  match b with
  | Envelope l => l
  | Bare l => l
  end.

(** The three records that the [catch] of [cargarDatos] writes. *)
Definition datos_de_ejemplo : list Avenida :=
  [ mkAvenida 1 "Av. Perón" "Centro"
      (JNum (num_of_Z 45)) (JNum (num_of_Z 28)) (JNum (Fin 8.5)) "alto";
    mkAvenida 2 "Calle Rivadavia" "Norte"
      (JNum (num_of_Z 12)) (JNum (num_of_Z 8)) (JNum (Fin 3.2)) "bajo";
    mkAvenida 3 "Ruta 38" "Este"
      (JNum (num_of_Z 32)) (JNum (num_of_Z 15)) (JNum (Fin 6.8)) "medio" ].

Definition error_de_carga : string :=
  "Error al cargar el índice de seguridad. Verifica que el backend esté corriendo.".

Section Page.

(** The result of a comparison is the backend's; so is a failure. *)
Variables Comparacion Err : Type.

(** The host's [parseInt] on a string. *)
Variable parseInt : string -> JsNumber.

Record State : Type := mkState {
  avenidas : list Avenida;
  loading : bool;
  error : option string;
  ordenamiento : string;
  limite : option JsNumber;
  mostrarComparacion : bool;
  avenida1 : string;
  avenida2 : string;
  resultadoComparacion : option Comparacion;
  topSeguras : list Avenida;
  topPeligrosas : list Avenida
}.

Definition initial : State :=
  mkState [] true None "peligrosidad" None false "" "" None [] [].

Definition setAvenidas (v : list Avenida) (st : State) : State :=
  mkState v (loading st) (error st) (ordenamiento st) (limite st)
    (mostrarComparacion st) (avenida1 st) (avenida2 st)
    (resultadoComparacion st) (topSeguras st) (topPeligrosas st).
Definition setLoading (v : bool) (st : State) : State :=
  mkState (avenidas st) v (error st) (ordenamiento st) (limite st)
    (mostrarComparacion st) (avenida1 st) (avenida2 st)
    (resultadoComparacion st) (topSeguras st) (topPeligrosas st).
Definition setError (v : option string) (st : State) : State :=
  mkState (avenidas st) (loading st) v (ordenamiento st) (limite st)
    (mostrarComparacion st) (avenida1 st) (avenida2 st)
    (resultadoComparacion st) (topSeguras st) (topPeligrosas st).
Definition setOrdenamiento (v : string) (st : State) : State :=
  mkState (avenidas st) (loading st) (error st) v (limite st)
    (mostrarComparacion st) (avenida1 st) (avenida2 st)
    (resultadoComparacion st) (topSeguras st) (topPeligrosas st).
Definition setLimite (v : option JsNumber) (st : State) : State :=
  mkState (avenidas st) (loading st) (error st) (ordenamiento st) v
    (mostrarComparacion st) (avenida1 st) (avenida2 st)
    (resultadoComparacion st) (topSeguras st) (topPeligrosas st).
Definition setAvenida1 (v : string) (st : State) : State :=
  mkState (avenidas st) (loading st) (error st) (ordenamiento st) (limite st)
    (mostrarComparacion st) v (avenida2 st)
    (resultadoComparacion st) (topSeguras st) (topPeligrosas st).
Definition setAvenida2 (v : string) (st : State) : State :=
  mkState (avenidas st) (loading st) (error st) (ordenamiento st) (limite st)
    (mostrarComparacion st) (avenida1 st) v
    (resultadoComparacion st) (topSeguras st) (topPeligrosas st).
Definition setResultadoComparacion (v : option Comparacion) (st : State)
  : State :=
  mkState (avenidas st) (loading st) (error st) (ordenamiento st) (limite st)
    (mostrarComparacion st) (avenida1 st) (avenida2 st)
    v (topSeguras st) (topPeligrosas st).
Definition setTopSeguras (v : list Avenida) (st : State) : State :=
  mkState (avenidas st) (loading st) (error st) (ordenamiento st) (limite st)
    (mostrarComparacion st) (avenida1 st) (avenida2 st)
    (resultadoComparacion st) v (topPeligrosas st).
Definition setTopPeligrosas (v : list Avenida) (st : State) : State :=
  mkState (avenidas st) (loading st) (error st) (ordenamiento st) (limite st)
    (mostrarComparacion st) (avenida1 st) (avenida2 st)
    (resultadoComparacion st) (topSeguras st) v.

(** [{ orden: ordenamiento, ...(limite && { limite }) }] *)
Definition params_limite (st : State) : option JsNumber :=
  match limite st with
  | Some n => if truthy_num n then Some n else None
  | None => None
  end.

(** [cargarDatos], up to its [await]. *)
Definition cargarDatos_start (st : State) : State * list (Effect Call) :=
  let st := setError None (setLoading true st) in
  (st,
   [ConsoleLog "📊 Cargando índice de seguridad...";
    Request (GetIndiceSeguridad (ordenamiento st) (params_limite st))]).

(** [cargarDatos], from its [await] on: the response is written to
    [avenidas]; on a failure the message is set and [avenidas] is replaced
    by the example records; [loading] ends either way. *)
Definition cargarDatos_settle (res : Settled Body Err) (st : State)
  : State * list (Effect Call) :=
  match res with
  | Resolved response =>
      (setLoading false (setAvenidas (avenidas_of response) st),
       [ConsoleLog "✅ Datos recibidos:"])
  | Rejected _ =>
      let st := setError (Some error_de_carga) st in
      let st := setAvenidas datos_de_ejemplo st in
      (setLoading false st, [ConsoleError "❌ Error al cargar datos:"])
  end.

Definition cargarDatos (res : Settled Body Err) (st : State)
  : State * list (Effect Call) :=
  let (st1, before) := cargarDatos_start st in
  let (st2, after) := cargarDatos_settle res st1 in
  (st2, before ++ after).

(** [cargarTops]: the two reads under one [Promise.all]; a failure is
    logged. *)
Definition cargarTops (seguras peligrosas : Settled Body Err) (st : State)
  : State * list (Effect Call) :=
  let sent := [Request (GetTopAvenidasSeguras 5);
               Request (GetTopAvenidasPeligrosas 5)] in
  match seguras, peligrosas with
  | Resolved s, Resolved p =>
      (setTopPeligrosas (avenidas_of p) (setTopSeguras (avenidas_of s) st),
       sent)
  | _, _ => (st, sent ++ [ConsoleError "Error al cargar tops:"])
  end.

(** [compararAvenidas] *)
Definition compararAvenidas (res : Settled Comparacion Err) (st : State)
  : State * list (Effect Call) :=
  if string_is_empty (avenida1 st) || string_is_empty (avenida2 st) then
    (st, [Alert "Por favor selecciona dos avenidas para comparar"])
  else if String.eqb (avenida1 st) (avenida2 st) then
    (st, [Alert "Debes seleccionar dos avenidas diferentes"])
  else
    let sent :=
      [Request (CompararAvenidas (parseInt (avenida1 st))
                                 (parseInt (avenida2 st)))] in
    match res with
    | Resolved resultado =>
        (setResultadoComparacion (Some resultado) st, sent)
    | Rejected _ =>
        (st, sent ++ [ConsoleError "Error al comparar:";
                      Alert "Error al comparar las avenidas"])
    end.

(** The [onChange] of the "Mostrar" select:
    [setLimite(e.target.value ? parseInt(e.target.value) : null)]. *)
Definition onChangeLimite (value : string) (st : State) : State :=
  setLimite (if string_is_empty value then None else Some (parseInt value)) st.

(** [getColorRiesgo] *)
Definition getColorRiesgo (nivelRiesgo : string) : string :=
  if String.eqb nivelRiesgo "alto" then
    "bg-red-100 text-red-800 border-red-300"
  else if String.eqb nivelRiesgo "medio" then
    "bg-yellow-100 text-yellow-800 border-yellow-300"
  else if String.eqb nivelRiesgo "bajo" then
    "bg-green-100 text-green-800 border-green-300"
  else if String.eqb nivelRiesgo "muy_bajo" then
    "bg-blue-100 text-blue-800 border-blue-300"
  else "bg-yellow-100 text-yellow-800 border-yellow-300".

(** A row of the main table: the cells in the order of the columns, the
    numbers as they are before [formatearIndice] prints them. *)
Record Fila : Type := mkFila {
  fila_nombre : string;
  fila_zona : string;
  fila_siniestros : JsVal;
  fila_delitos : JsVal;
  fila_indice : JsVal;
  fila_color : string
}.

Definition fila (avenida : Avenida) : Fila :=
  mkFila (nombre avenida) (zona avenida)
    (or_else (total_siniestros avenida) (JNum (Fin 0)))
    (or_else (total_delitos avenida) (JNum (Fin 0)))
    (or_else (indice_peligrosidad avenida) (JNum (Fin 0)))
    (getColorRiesgo (nivel_riesgo avenida)).

(** The rows of the main table: [avenidas.map(...)], in the order of the
    state's list. *)
Definition tabla (st : State) : list Fila := map fila (avenidas st).

(** What the component returns: the spinner while [loading]; otherwise the
    page, with the banner when [error] is set, the two tops and the table. *)
Inductive View : Type :=
| Spinner
| Page (banner : option string) (seguras peligrosas : list Avenida)
       (filas : list Fila).

Definition render (st : State) : View :=
  if loading st then Spinner
  else Page (error st) (topSeguras st) (topPeligrosas st) (tabla st).

(** The indices shown in the table, top to bottom. *)
Definition indices_mostrados (st : State) : list JsVal :=
  map fila_indice (tabla st).

Definition nombres_mostrados (st : State) : list string :=
  map fila_nombre (tabla st).

End Page.

Arguments initial {Comparacion}.

End IndiceSeguridad.

(** ** The crime-report page: frontend/src/pages/ReportesDelito.jsx *)

Module ReportesDelito.

(** A report, as [reportesDelitoService.getAll] answers it. *)
Record Reporte : Type := mkReporte {
  id : Z;
  fecha : string;
  hora : string;
  avenida_id : Z;
  tipo_delito : string;
  nivel_peligrosidad : string;
  descripcion : option string;
  usuario_id : Z;
  avenida_nombre : string
}.

(** A street of the reference list, as [avenidasService.getAll] answers it. *)
Record Avenida : Type := mkAvenida {
  av_id : Z;
  av_nombre : string
}.

Record Filtros : Type := mkFiltros {
  f_tipo_delito : string;
  f_nivel_peligrosidad : string;
  f_avenida_id : string
}.

(** The draft of the form.  [avenida_id] is the string of the select once the
    user has chosen, the number of the report when [handleEdit] filled it. *)
Record FormData : Type := mkFormData {
  fd_fecha : string;
  fd_hora : string;
  fd_avenida_id : JsVal;
  fd_tipo_delito : string;
  fd_nivel_peligrosidad : string;
  fd_descripcion : string;
  fd_usuario_id : Z
}.

(** The [params] object that [cargarDatos] builds: a key is present when the
    filter is not empty. *)
Record Params : Type := mkParams {
  p_tipo_delito : option string;
  p_nivel_peligrosidad : option string;
  p_avenida_id : option string
}.

(** The calls to [reportesDelitoService] and [avenidasService]. *)
Inductive Call : Type :=
| GetAll (params : Params)
| GetAvenidas
| Create (reporte : FormData)
| Update (id : Z) (reporte : FormData)
| Delete (id : Z).

Record State : Type := mkState {
  reportes : list Reporte;
  avenidas : list Avenida;
  loading : bool;
  error : option string;
  showModal : bool;
  editingReporte : option Reporte;
  filtros : Filtros;
  formData : FormData
}.

Definition formData_inicial : FormData :=
  mkFormData "" "" (JStr "") "robo" "media" "" 1.

Definition initial : State :=
  mkState [] [] true None false None (mkFiltros "" "" "") formData_inicial.

Definition setReportes (v : list Reporte) (st : State) : State :=
  mkState v (avenidas st) (loading st) (error st) (showModal st)
    (editingReporte st) (filtros st) (formData st).
Definition setAvenidas (v : list Avenida) (st : State) : State :=
  mkState (reportes st) v (loading st) (error st) (showModal st)
    (editingReporte st) (filtros st) (formData st).
Definition setLoading (v : bool) (st : State) : State :=
  mkState (reportes st) (avenidas st) v (error st) (showModal st)
    (editingReporte st) (filtros st) (formData st).
Definition setError (v : option string) (st : State) : State :=
  mkState (reportes st) (avenidas st) (loading st) v (showModal st)
    (editingReporte st) (filtros st) (formData st).
Definition setShowModal (v : bool) (st : State) : State :=
  mkState (reportes st) (avenidas st) (loading st) (error st) v
    (editingReporte st) (filtros st) (formData st).
Definition setEditingReporte (v : option Reporte) (st : State) : State :=
  mkState (reportes st) (avenidas st) (loading st) (error st) (showModal st)
    v (filtros st) (formData st).
Definition setFiltros (v : Filtros) (st : State) : State :=
  mkState (reportes st) (avenidas st) (loading st) (error st) (showModal st)
    (editingReporte st) v (formData st).
Definition setFormData (v : FormData) (st : State) : State :=
  mkState (reportes st) (avenidas st) (loading st) (error st) (showModal st)
    (editingReporte st) (filtros st) v.

Definition non_empty (s : string) : option string :=
  if string_is_empty s then None else Some s.

(** [if (filtros.x) params.x = filtros.x], for the three filters. *)
Definition params_of (f : Filtros) : Params :=
  mkParams (non_empty (f_tipo_delito f))
           (non_empty (f_nivel_peligrosidad f))
           (non_empty (f_avenida_id f)).

(** A handler runs on the state, performs effects, and may leave calls
    awaited: each with the code that runs when it settles. *)
Inductive Continuation : Type :=
| AfterGetAll                              (* rest of [cargarDatos] *)
| AfterGetAvenidas                         (* rest of [cargarAvenidas] *)
| AfterSave (filtros_seen : Filtros)       (* rest of [handleSubmit] *)
| AfterDelete (filtros_seen : Filtros).    (* rest of [handleDelete] *)

Record Awaited : Type := mkAwaited {
  aw_call : Call;
  aw_then : Continuation
}.

Record Outcome : Type := mkOutcome {
  o_state : State;
  o_effects : list (Effect Call);
  o_awaited : list Awaited
}.

Definition andThen (a : Outcome) (k : State -> Outcome) : Outcome :=
  let b := k (o_state a) in
  mkOutcome (o_state b) (o_effects a ++ o_effects b)
            (o_awaited a ++ o_awaited b).

Definition done (st : State) : Outcome := mkOutcome st [] [].

(** [resetForm] *)
Definition resetForm (st : State) : State :=
  setEditingReporte None (setFormData formData_inicial st).

(** [handleNuevoReporte] *)
Definition handleNuevoReporte (st : State) : State :=
  setShowModal true (resetForm st).

(** [reporte.descripcion || ''] *)
Definition descripcion_o_vacia (d : option string) : string :=
  match d with
  | Some s => or_else_str s ""
  | None => ""
  end.

(** [handleEdit] *)
Definition handleEdit (reporte : Reporte) (st : State) : State :=
  let st := setEditingReporte (Some reporte) st in
  let st :=
    setFormData
      (mkFormData (fecha reporte) (hora reporte)
         (JNum (num_of_Z (avenida_id reporte)))
         (tipo_delito reporte) (nivel_peligrosidad reporte)
         (descripcion_o_vacia (descripcion reporte))
         (usuario_id reporte))
      st in
  setShowModal true st.

(** The "Cancelar" button: [setShowModal(false); resetForm()]. *)
Definition cancelar (st : State) : State :=
  resetForm (setShowModal false st).

(** The controls of the form and of the filter bar. *)
Inductive Campo : Type :=
| CFecha | CHora | CAvenida | CTipoDelito | CNivelPeligrosidad | CDescripcion.

(** [onChange] of a control of the form:
    [setFormData({ ...formData, campo: e.target.value })]. *)
Definition onChangeForm (c : Campo) (value : string) (st : State) : State :=
  let fd := formData st in
  setFormData
    match c with
    | CFecha =>
        mkFormData value (fd_hora fd) (fd_avenida_id fd) (fd_tipo_delito fd)
          (fd_nivel_peligrosidad fd) (fd_descripcion fd) (fd_usuario_id fd)
    | CHora =>
        mkFormData (fd_fecha fd) value (fd_avenida_id fd) (fd_tipo_delito fd)
          (fd_nivel_peligrosidad fd) (fd_descripcion fd) (fd_usuario_id fd)
    | CAvenida =>
        mkFormData (fd_fecha fd) (fd_hora fd) (JStr value) (fd_tipo_delito fd)
          (fd_nivel_peligrosidad fd) (fd_descripcion fd) (fd_usuario_id fd)
    | CTipoDelito =>
        mkFormData (fd_fecha fd) (fd_hora fd) (fd_avenida_id fd) value
          (fd_nivel_peligrosidad fd) (fd_descripcion fd) (fd_usuario_id fd)
    | CNivelPeligrosidad =>
        mkFormData (fd_fecha fd) (fd_hora fd) (fd_avenida_id fd)
          (fd_tipo_delito fd) value (fd_descripcion fd) (fd_usuario_id fd)
    | CDescripcion =>
        mkFormData (fd_fecha fd) (fd_hora fd) (fd_avenida_id fd)
          (fd_tipo_delito fd) (fd_nivel_peligrosidad fd) value
          (fd_usuario_id fd)
    end st.

(** [onChange] of a select of the filter bar:
    [setFiltros({ ...filtros, campo: e.target.value })].  The bar has no
    control for the other fields. *)
Definition onChangeFiltro (c : Campo) (value : string) (st : State) : State :=
  let f := filtros st in
  match c with
  | CTipoDelito =>
      setFiltros (mkFiltros value (f_nivel_peligrosidad f) (f_avenida_id f)) st
  | CNivelPeligrosidad =>
      setFiltros (mkFiltros (f_tipo_delito f) value (f_avenida_id f)) st
  | CAvenida =>
      setFiltros (mkFiltros (f_tipo_delito f) (f_nivel_peligrosidad f) value) st
  | _ => st
  end.

(** The body of a creation or of an update as it travels: the keys of the
    draft and their values. *)
Definition body_fields (fd : FormData) : list (string * JsVal) :=
  [ ("fecha", JStr (fd_fecha fd));
    ("hora", JStr (fd_hora fd));
    ("avenida_id", fd_avenida_id fd);
    ("tipo_delito", JStr (fd_tipo_delito fd));
    ("nivel_peligrosidad", JStr (fd_nivel_peligrosidad fd));
    ("descripcion", JStr (fd_descripcion fd));
    ("usuario_id", JNum (num_of_Z (fd_usuario_id fd))) ].

Definition body_of (c : Call) : option (list (string * JsVal)) :=
  match c with
  | Create reporte => Some (body_fields reporte)
  | Update _ reporte => Some (body_fields reporte)
  | _ => None
  end.

(** The values of the options of the "Avenida" select of the form: the
    empty one, then one for each street of the reference list. *)
Definition opciones_avenida (st : State) : list string :=
  "" :: map (fun a => string_of_Z (av_id a)) (avenidas st).

(** The street whose option the "Avenida" select of the form shows: the
    first street of the list whose option has the value of the draft.  When
    there is none the select shows its first option, the empty one. *)
Definition avenida_mostrada (st : State) : option Avenida :=
  find (fun a => coincide (fd_avenida_id (formData st)) (av_id a))
       (avenidas st).

Section Handlers.

(** What a rejected call carries is the transport's. *)
Variable Err : Type.

(** [cargarDatos], up to its [await].  The function reads [filtros] from
    the render it was created in: [filtros_seen]. *)
Definition cargarDatos_start (filtros_seen : Filtros) (st : State) : Outcome :=
  let st := setError None (setLoading true st) in
  let call := GetAll (params_of filtros_seen) in
  mkOutcome st [Request call] [mkAwaited call AfterGetAll].

(** [cargarDatos], from its [await] on. *)
Definition cargarDatos_settle (res : Settled (list Reporte) Err) (st : State)
  : Outcome :=
  match res with
  | Resolved data => done (setLoading false (setReportes data st))
  | Rejected _ =>
      let st := setError (Some "Error al cargar los reportes delictivos") st in
      mkOutcome (setLoading false st)
        [ConsoleError "Error al cargar reportes:"] []
  end.

(** [cargarAvenidas], up to its [await] and from it on. *)
Definition cargarAvenidas_start (st : State) : Outcome :=
  mkOutcome st [Request GetAvenidas] [mkAwaited GetAvenidas AfterGetAvenidas].

Definition cargarAvenidas_settle (res : Settled (list Avenida) Err)
    (st : State) : Outcome :=
  match res with
  | Resolved data => done (setAvenidas data st)
  | Rejected _ => mkOutcome st [ConsoleError "Error al cargar avenidas:"] []
  end.

(** The effect [useEffect(() => { cargarDatos(); cargarAvenidas(); },
    [filtros])]: it runs after the first render and after every render in
    which [filtros] is a new object. *)
Definition efecto (st : State) : Outcome :=
  andThen (cargarDatos_start (filtros st) st) cargarAvenidas_start.

(** [handleSubmit], up to its [await]: the draft itself is the body. *)
Definition handleSubmit_start (st : State) : Outcome :=
  let call :=
    match editingReporte st with
    | Some r => Update (id r) (formData st)
    | None => Create (formData st)
    end in
  mkOutcome st [Request call] [mkAwaited call (AfterSave (filtros st))].

(** [handleSubmit], from its [await] on; [cargarDatos()] is not awaited. *)
Definition handleSubmit_settle (filtros_seen : Filtros)
    (res : Settled unit Err) (st : State) : Outcome :=
  match res with
  | Resolved _ =>
      let st := resetForm (setShowModal false st) in
      cargarDatos_start filtros_seen st
  | Rejected _ =>
      mkOutcome st [ConsoleError "Error al guardar:";
                    Alert "Error al guardar el reporte"] []
  end.

(** [handleDelete]: nothing happens unless [window.confirm] answers yes. *)
Definition handleDelete_start (id : Z) (confirmed : bool) (st : State)
  : Outcome :=
  if confirmed then
    mkOutcome st [Request (Delete id)]
      [mkAwaited (Delete id) (AfterDelete (filtros st))]
  else done st.

Definition handleDelete_settle (filtros_seen : Filtros)
    (res : Settled unit Err) (st : State) : Outcome :=
  match res with
  | Resolved _ => cargarDatos_start filtros_seen st
  | Rejected _ =>
      mkOutcome st [ConsoleError "Error al eliminar:";
                    Alert "Error al eliminar el reporte"] []
  end.

(** A handler run to the end of its own [await], nothing else happening
    meanwhile: the call it awaited is settled, what it leaves awaited is what
    the rest of the handler started. *)
Definition settledBy (a : Outcome) (k : State -> Outcome) : Outcome :=
  let b := k (o_state a) in
  mkOutcome (o_state b) (o_effects a ++ o_effects b) (o_awaited b).

Definition cargarDatos (res : Settled (list Reporte) Err) (st : State)
  : Outcome :=
  settledBy (cargarDatos_start (filtros st) st) (cargarDatos_settle res).

Definition cargarAvenidas (res : Settled (list Avenida) Err) (st : State)
  : Outcome :=
  settledBy (cargarAvenidas_start st) (cargarAvenidas_settle res).

Definition handleSubmit (res : Settled unit Err) (st : State) : Outcome :=
  settledBy (handleSubmit_start st) (handleSubmit_settle (filtros st) res).

Definition handleDelete (id : Z) (confirmed : bool) (res : Settled unit Err)
    (st : State) : Outcome :=
  if confirmed then
    settledBy (handleDelete_start id true st)
              (handleDelete_settle (filtros st) res)
  else done st.

(** A selection that is empty: the draft holds the empty text. *)
Definition control_vacio (v : JsVal) : bool :=
  match v with
  | JNull => true
  | JStr s => string_is_empty s
  | JNum _ => false
  end.

(** A control marked [required] blocks the submission while its value is
    empty: the browser shows its message on the first such control, in the
    order of the form, and does not call [onSubmit].  The value of an input
    is the text of the draft; the value of the "Avenida" select is the value
    of the option it shows, which is empty when no street of the list has
    the value of the draft.  The selects of the type and of the level have
    no empty option: they always show an option with a value, the first one
    when none has the value of the draft, and never hold the form back.
    Nothing else of the browser's validation is modelled (the shape of a
    date or of a time), so the submissions of the model include those of
    the page. *)
Definition primer_requerido_vacio (st : State) : option string :=
  let fd := formData st in
  if string_is_empty (fd_fecha fd) then Some "fecha"
  else if string_is_empty (fd_hora fd) then Some "hora"
  else match avenida_mostrada st with
       | Some _ => None
       | None => Some "avenida_id"
       end.

(** [<form onSubmit={handleSubmit}>] with its [required] controls. *)
Definition form_onSubmit (st : State) : Outcome :=
  match primer_requerido_vacio st with
  | Some campo => mkOutcome st [ValidationMessage campo] []
  | None => handleSubmit_start st
  end.


(** *** The page as a machine

    The page between two events: the state, the calls that are awaited (in
    the order they were sent) and everything done so far.  The events are
    not restricted here to those the page on screen allows (a click on a
    row that is not shown, a submission while the modal is closed): what
    holds for every sequence of events holds for the sequences that can
    happen.  The sequences that can happen are those of [Pantalla.posible]
    below. *)

Record Page : Type := mkPage {
  view : State;
  awaiting : list Awaited;
  history : list (Effect Call)
}.

(** What a call settles to, by the kind of call. *)
Inductive Respuesta : Type :=
| DeGetAll (res : Settled (list Reporte) Err)
| DeGetAvenidas (res : Settled (list Avenida) Err)
| DeGuardar (res : Settled unit Err).

Inductive Event : Type :=
| ChangeFiltro (c : Campo) (value : string)
| ChangeForm (c : Campo) (value : string)
| ClickNuevoReporte
| ClickEditar (reporte : Reporte)
| ClickCancelar
| SubmitForm
| ClickEliminar (id : Z) (confirmed : bool)
| Settle (i : nat) (r : Respuesta).

Definition absorb (p : Page) (still_awaited : list Awaited) (o : Outcome)
  : Page :=
  mkPage (o_state o) (still_awaited ++ o_awaited o)
         (history p ++ o_effects o).

Definition resume (k : Continuation) (r : Respuesta) (st : State)
  : option Outcome :=
  match k, r with
  | AfterGetAll, DeGetAll res => Some (cargarDatos_settle res st)
  | AfterGetAvenidas, DeGetAvenidas res => Some (cargarAvenidas_settle res st)
  | AfterSave f, DeGuardar res => Some (handleSubmit_settle f res st)
  | AfterDelete f, DeGuardar res => Some (handleDelete_settle f res st)
  | _, _ => None
  end.

Fixpoint remove_nth {A : Type} (i : nat) (l : list A) : list A :=
  match i, l with
  | _, [] => []
  | O, _ :: rest => rest
  | S j, x :: rest => x :: remove_nth j rest
  end.

Definition es_filtro (c : Campo) : bool :=
  match c with
  | CTipoDelito | CNivelPeligrosidad | CAvenida => true
  | _ => false
  end.

(** One event.  A change of filter sets [filtros] to a new object, so the
    effect runs again; a call settles with the state as it is by then. *)
Definition step (ev : Event) (p : Page) : Page :=
  match ev with
  | ChangeFiltro c value =>
      if es_filtro c
      then absorb p (awaiting p) (efecto (onChangeFiltro c value (view p)))
      else p
  | ChangeForm c value =>
      absorb p (awaiting p) (done (onChangeForm c value (view p)))
  | ClickNuevoReporte =>
      absorb p (awaiting p) (done (handleNuevoReporte (view p)))
  | ClickEditar reporte =>
      absorb p (awaiting p) (done (handleEdit reporte (view p)))
  | ClickCancelar =>
      absorb p (awaiting p) (done (cancelar (view p)))
  | SubmitForm =>
      absorb p (awaiting p) (form_onSubmit (view p))
  | ClickEliminar id confirmed =>
      absorb p (awaiting p) (handleDelete_start id confirmed (view p))
  | Settle i r =>
      match nth_error (awaiting p) i with
      | Some a =>
          match resume (aw_then a) r (view p) with
          | Some o => absorb p (remove_nth i (awaiting p)) o
          | None => p
          end
      | None => p
      end
  end.

(** The page once mounted: the effect has run on the initial state. *)
Definition mounted : Page :=
  absorb (mkPage initial [] []) [] (efecto initial).

Definition run_from (p : Page) (events : list Event) : Page :=
  fold_left (fun q ev => step ev q) events p.

Definition run (events : list Event) : Page := run_from mounted events.



(** What the page keeps true of [usuario_id], given the events so far: the
    draft carries 1 unless a report is being edited, and then it carries
    that report's; every creation sent carried 1; every update sent carried
    the [usuario_id] of a report that was opened for editing. *)
Definition usuario_invariant (events : list Event) (p : Page) : Prop :=
  match editingReporte (view p) with
  | None => fd_usuario_id (formData (view p)) = 1%Z
  | Some r =>
      In (ClickEditar r) events /\
      fd_usuario_id (formData (view p)) = usuario_id r
  end /\
  (forall body, In (Request (Create body)) (history p) ->
     fd_usuario_id body = 1%Z) /\
  (forall i body, In (Request (Update i body)) (history p) ->
     exists r, In (ClickEditar r) events /\ i = id r /\
               fd_usuario_id body = usuario_id r).

End Handlers.

Arguments ChangeFiltro {Err} c value.
Arguments ChangeForm {Err} c value.
Arguments ClickNuevoReporte {Err}.
Arguments ClickEditar {Err} reporte.
Arguments ClickCancelar {Err}.
Arguments SubmitForm {Err}.
Arguments ClickEliminar {Err} id confirmed.

End ReportesDelito.

(** ** The incident page: the component [Siniestros] *)

Module Siniestros.

(** What a rejected call carries: the [detail] of the response when the
    backend sent one ([err.response?.data?.detail]) and the [message] of the
    error, both as text. *)
Record ApiError : Type := mkApiError {
  detail : option string;
  message : string
}.

(** An incident, as [/siniestros/] answers it; what may be missing is
    [None] or [JNull]. *)
Record Siniestro : Type := mkSiniestro {
  id : Z;
  fecha : option string;
  hora : option string;
  avenida_id : JsVal;
  tipo_id : JsVal;
  nivel_gravedad : option string;
  victimas_fatales : JsVal;
  heridos : JsVal;
  num_vehiculos : JsVal;
  observaciones : option string
}.

(** An entry of a reference list ([/avenidas/], [/tipos-siniestro/]). *)
Record Referencia : Type := mkReferencia {
  ref_id : Z;
  ref_nombre : string
}.

(** The draft. *)
Record Form : Type := mkForm {
  f_id : option Z;
  f_fecha : string;
  f_hora : string;
  f_avenida_id : JsVal;
  f_tipo_id : JsVal;
  f_nivel_gravedad : string;
  f_victimas_fatales : JsVal;
  f_heridos : JsVal;
  f_num_vehiculos : JsVal;
  f_observaciones : string
}.

(** The body that [handleSubmit] builds. *)
Record Payload : Type := mkPayload {
  pl_fecha : JsVal;
  pl_hora : JsVal;
  pl_avenida_id : JsVal;
  pl_tipo_id : JsVal;
  pl_nivel_gravedad : string;
  pl_victimas_fatales : JsVal;
  pl_heridos : JsVal;
  pl_num_vehiculos : JsVal;
  pl_observaciones : JsVal
}.

Inductive Call : Type :=
| GetSiniestros
| GetAvenidas
| GetTiposSiniestro
| Put (id : Z) (payload : Payload)
| Post (payload : Payload)
| Delete (id : Z).

(** [error] holds the text that [handleSubmit] computes or the error object
    itself. *)
Inductive ErrorValue : Type :=
| Mensaje (texto : string)
| Excepcion (err : ApiError).

Record State : Type := mkState {
  siniestros : list Siniestro;
  avenidas : list Referencia;
  tiposSiniestro : list Referencia;
  loading : bool;
  error : option ErrorValue;
  form : Form
}.

Definition form_inicial : Form :=
  mkForm None "" "" (JStr "") (JStr "") "media"
    (JNum (Fin 0)) (JNum (Fin 0)) (JNum (Fin 0)) "".

Definition initial : State :=
  mkState [] [] [] true None form_inicial.

Definition setSiniestros (v : list Siniestro) (st : State) : State :=
  mkState v (avenidas st) (tiposSiniestro st) (loading st) (error st)
    (form st).
Definition setAvenidas (v : list Referencia) (st : State) : State :=
  mkState (siniestros st) v (tiposSiniestro st) (loading st) (error st)
    (form st).
Definition setTiposSiniestro (v : list Referencia) (st : State) : State :=
  mkState (siniestros st) (avenidas st) v (loading st) (error st) (form st).
Definition setLoading (v : bool) (st : State) : State :=
  mkState (siniestros st) (avenidas st) (tiposSiniestro st) v (error st)
    (form st).
Definition setError (v : option ErrorValue) (st : State) : State :=
  mkState (siniestros st) (avenidas st) (tiposSiniestro st) (loading st) v
    (form st).
Definition setForm (v : Form) (st : State) : State :=
  mkState (siniestros st) (avenidas st) (tiposSiniestro st) (loading st)
    (error st) v.

(** [res.data || []] *)
Definition data_o_vacia {A : Type} (data : option (list A)) : list A :=
  match data with
  | Some l => l
  | None => []
  end.

(** [s || null] on a string *)
Definition texto_o_null (s : string) : JsVal := or_else (JStr s) JNull.

(** [cargarDatosIniciales]: the three reads under one [Promise.all].  The
    error kept is the one of the read that fails first; the order in which
    the reads settle is left out, and the first in the order of the array is
    taken. *)
Definition cargarDatosIniciales
    (resSiniestros : Settled (option (list Siniestro)) ApiError)
    (resAvenidas resTipos : Settled (option (list Referencia)) ApiError)
    (st : State) : State * list (Effect Call) :=
  let st := setLoading true st in
  let sent := [Request GetSiniestros; Request GetAvenidas;
               Request GetTiposSiniestro] in
  match resSiniestros, resAvenidas, resTipos with
  | Resolved s, Resolved a, Resolved t =>
      let st := setSiniestros (data_o_vacia s) st in
      let st := setAvenidas (data_o_vacia a) st in
      let st := setTiposSiniestro (data_o_vacia t) st in
      (setLoading false st, sent)
  | Rejected err, _, _
  | _, Rejected err, _
  | _, _, Rejected err =>
      (setLoading false (setError (Some (Excepcion err)) st),
       sent ++ [ConsoleError "Error al cargar datos:"])
  end.

(** [fetchSiniestros] *)
Definition fetchSiniestros
    (res : Settled (option (list Siniestro)) ApiError) (st : State)
  : State * list (Effect Call) :=
  match res with
  | Resolved data =>
      (setSiniestros (data_o_vacia data) st, [Request GetSiniestros])
  | Rejected err =>
      (setError (Some (Excepcion err)) st,
       [Request GetSiniestros; ConsoleError "Error al cargar siniestros:"])
  end.

(** [resetForm] *)
Definition resetForm (st : State) : State := setForm form_inicial st.

(** [err.response?.data?.detail || err.message] *)
Definition detail_o_message (err : ApiError) : string :=
  match detail err with
  | Some d => or_else_str d (message err)
  | None => message err
  end.

(** [if (form.id)]: the id of the incident being edited, when there is one
    and it is not zero. *)
Definition id_en_edicion (f : Form) : option Z :=
  match f_id f with
  | Some i => if Z.eqb i 0 then None else Some i
  | None => None
  end.

(** [includes('T')] and [split('T')[0]] *)
Fixpoint incluye_T (s : string) : bool :=
  match s with
  | EmptyString => false
  | String c rest => if Ascii.eqb c "T" then true else incluye_T rest
  end.

Fixpoint antes_de_T (s : string) : string :=
  match s with
  | EmptyString => EmptyString
  | String c rest =>
      if Ascii.eqb c "T" then EmptyString else String c (antes_de_T rest)
  end.

(** [handleEdit] *)
Definition handleEdit (s : Siniestro) (st : State)
  : State * list (Effect Call) :=
  (setForm
     (mkForm (Some (id s))
        match fecha s with
        | Some f =>
            if string_is_empty f then ""
            else if incluye_T f then antes_de_T f else f
        | None => ""
        end
        match hora s with Some h => or_else_str h "" | None => "" end
        (or_else (avenida_id s) (JStr ""))
        (or_else (tipo_id s) (JStr ""))
        match nivel_gravedad s with
        | Some n => or_else_str n "media"
        | None => "media"
        end
        (or_else (victimas_fatales s) (JNum (Fin 0)))
        (or_else (heridos s) (JNum (Fin 0)))
        (or_else (num_vehiculos s) (JNum (Fin 0)))
        match observaciones s with Some o => or_else_str o "" | None => "" end)
     st,
   [ScrollToTop]).

(** The controls of the form. *)
Inductive Campo : Type :=
| CFecha | CHora | CAvenida | CTipo | CNivelGravedad
| CVictimasFatales | CHeridos | CNumVehiculos | CObservaciones.

(** [onChange] of a control: [setForm(f => ({ ...f, campo: e.target.value }))]. *)
Definition onChange (c : Campo) (value : string) (st : State) : State :=
  let f := form st in
  setForm
    match c with
    | CFecha =>
        mkForm (f_id f) value (f_hora f) (f_avenida_id f) (f_tipo_id f)
          (f_nivel_gravedad f) (f_victimas_fatales f) (f_heridos f)
          (f_num_vehiculos f) (f_observaciones f)
    | CHora =>
        mkForm (f_id f) (f_fecha f) value (f_avenida_id f) (f_tipo_id f)
          (f_nivel_gravedad f) (f_victimas_fatales f) (f_heridos f)
          (f_num_vehiculos f) (f_observaciones f)
    | CAvenida =>
        mkForm (f_id f) (f_fecha f) (f_hora f) (JStr value) (f_tipo_id f)
          (f_nivel_gravedad f) (f_victimas_fatales f) (f_heridos f)
          (f_num_vehiculos f) (f_observaciones f)
    | CTipo =>
        mkForm (f_id f) (f_fecha f) (f_hora f) (f_avenida_id f) (JStr value)
          (f_nivel_gravedad f) (f_victimas_fatales f) (f_heridos f)
          (f_num_vehiculos f) (f_observaciones f)
    | CNivelGravedad =>
        mkForm (f_id f) (f_fecha f) (f_hora f) (f_avenida_id f) (f_tipo_id f)
          value (f_victimas_fatales f) (f_heridos f)
          (f_num_vehiculos f) (f_observaciones f)
    | CVictimasFatales =>
        mkForm (f_id f) (f_fecha f) (f_hora f) (f_avenida_id f) (f_tipo_id f)
          (f_nivel_gravedad f) (JStr value) (f_heridos f)
          (f_num_vehiculos f) (f_observaciones f)
    | CHeridos =>
        mkForm (f_id f) (f_fecha f) (f_hora f) (f_avenida_id f) (f_tipo_id f)
          (f_nivel_gravedad f) (f_victimas_fatales f) (JStr value)
          (f_num_vehiculos f) (f_observaciones f)
    | CNumVehiculos =>
        mkForm (f_id f) (f_fecha f) (f_hora f) (f_avenida_id f) (f_tipo_id f)
          (f_nivel_gravedad f) (f_victimas_fatales f) (f_heridos f)
          (JStr value) (f_observaciones f)
    | CObservaciones =>
        mkForm (f_id f) (f_fecha f) (f_hora f) (f_avenida_id f) (f_tipo_id f)
          (f_nivel_gravedad f) (f_victimas_fatales f) (f_heridos f)
          (f_num_vehiculos f) value
    end st.

(** What the error box shows, when it is shown:
    [typeof error === 'string' ? error : error.message || 'Error desconocido']. *)
Definition error_visible (st : State) : option string :=
  match error st with
  | None => None
  | Some (Mensaje texto) =>
      if string_is_empty texto then None else Some texto
  | Some (Excepcion err) =>
      Some (or_else_str (message err) "Error desconocido")
  end.

Section Handlers.

(** The host's conversion of a string to a number. *)
Variable StringToNumber : string -> JsNumber.

(** The payload of [handleSubmit], "con los campos correctos". *)
Definition payload_of (f : Form) : Payload :=
  mkPayload
    (texto_o_null (f_fecha f))
    (texto_o_null (f_hora f))
    (JNum (Number StringToNumber (f_avenida_id f)))
    (JNum (Number StringToNumber (f_tipo_id f)))
    (f_nivel_gravedad f)
    (JNum (or_else_num (Number StringToNumber (f_victimas_fatales f)) (Fin 0)))
    (JNum (or_else_num (Number StringToNumber (f_heridos f)) (Fin 0)))
    (JNum (or_else_num (Number StringToNumber (f_num_vehiculos f)) (Fin 0)))
    (texto_o_null (f_observaciones f)).

(** [handleSubmit]: [res] is what the [put] or the [post] settles to,
    [recarga] what the read of [fetchSiniestros] settles to when it runs. *)
Definition handleSubmit
    (res : Settled unit ApiError)
    (recarga : Settled (option (list Siniestro)) ApiError)
    (st : State) : State * list (Effect Call) :=
  let st := setError None st in
  let payload := payload_of (form st) in
  let call :=
    match id_en_edicion (form st) with
    | Some i => Put i payload
    | None => Post payload
    end in
  let sent := [ConsoleLog "Enviando payload:"; Request call] in
  match res with
  | Resolved _ =>
      let (st, fetched) := fetchSiniestros recarga st in
      (resetForm st, sent ++ fetched)
  | Rejected err =>
      (setError
         (Some (Mensaje (or_else_str (detail_o_message err) "Error al guardar")))
         st,
       sent ++ [ConsoleError "Error al guardar siniestro:";
                Alert ("Error: " ++ detail_o_message err)])
  end.

(** [handleDelete]: nothing happens unless [confirm] answers yes. *)
Definition handleDelete (id : Z) (confirmed : bool)
    (res : Settled unit ApiError)
    (recarga : Settled (option (list Siniestro)) ApiError)
    (st : State) : State * list (Effect Call) :=
  if confirmed then
    match res with
    | Resolved _ =>
        let (st, fetched) := fetchSiniestros recarga st in
        (st, Request (Delete id) :: fetched)
    | Rejected err =>
        (setError (Some (Excepcion err)) st,
         [Request (Delete id); ConsoleError "Error al eliminar:";
          Alert "Error al eliminar el siniestro"])
    end
  else (st, []).

(** A selection that is empty: the draft holds the empty text. *)
Definition control_vacio (v : JsVal) : bool :=
  match v with
  | JNull => true
  | JStr s => string_is_empty s
  | JNum _ => false
  end.

(** The entry whose option a select of the form shows for the value [v] of
    the draft: the first entry of the reference list whose option has that
    value.  When there is none the select shows its first option, the empty
    one. *)
Definition referencia_mostrada (refs : list Referencia) (v : JsVal)
  : option Referencia :=
  find (fun r => coincide v (ref_id r)) refs.

Definition muestra_vacia (refs : list Referencia) (v : JsVal) : bool :=
  match referencia_mostrada refs v with
  | Some _ => false
  | None => true
  end.

(** A control marked [required] blocks the submission while its value is
    empty: the browser shows its message on the first such control, in the
    order of the form, and does not call [onSubmit].  The value of an input
    is the text of the draft; the value of a select is the value of the
    option it shows.  The select of the level has no empty option: it
    always shows an option with a value and never holds the form back.
    Nothing else of the browser's validation is modelled (the shape of a
    date, a number below the [min] of its input), so the submissions of the
    model include those of the page. *)
Definition primer_requerido_vacio (st : State) : option string :=
  let f := form st in
  if string_is_empty (f_fecha f) then Some "fecha"
  else if muestra_vacia (avenidas st) (f_avenida_id f) then Some "avenida_id"
  else if muestra_vacia (tiposSiniestro st) (f_tipo_id f) then Some "tipo_id"
  else None.

(** [<form onSubmit={handleSubmit}>] with its [required] controls. *)
Definition form_onSubmit
    (res : Settled unit ApiError)
    (recarga : Settled (option (list Siniestro)) ApiError)
    (st : State) : State * list (Effect Call) :=
  match primer_requerido_vacio st with
  | Some campo => (st, [ValidationMessage campo])
  | None => handleSubmit res recarga st
  end.

End Handlers.

(** The body of a [post] or of a [put] as it travels. *)
Definition body_fields (p : Payload) : list (string * JsVal) :=
  [ ("fecha", pl_fecha p);
    ("hora", pl_hora p);
    ("avenida_id", pl_avenida_id p);
    ("tipo_id", pl_tipo_id p);
    ("nivel_gravedad", JStr (pl_nivel_gravedad p));
    ("victimas_fatales", pl_victimas_fatales p);
    ("heridos", pl_heridos p);
    ("num_vehiculos", pl_num_vehiculos p);
    ("observaciones", pl_observaciones p) ].

Definition body_of (c : Call) : option (list (string * JsVal)) :=
  match c with
  | Put _ payload => Some (body_fields payload)
  | Post payload => Some (body_fields payload)
  | _ => None
  end.


End Siniestros.

(** ** Readings of the pages that are put to the test below *)

Module Readings.

(** The keys of a body that are foreign keys of streets and of incident
    types, and the keys of the optional texts. *)
Definition foreign_keys : list string := ["avenida_id"; "tipo_id"].
Definition optional_texts : list string := ["observaciones"; "descripcion"].

(** A body whose foreign keys are numbers and whose optional texts are not
    the empty string. *)
Definition normalised (body : list (string * JsVal)) : Prop :=
  (forall k v, In k foreign_keys -> In (k, v) body -> is_number v = true) /\
  (forall k v, In k optional_texts -> In (k, v) body -> v <> JStr "").

(** The reading in which the two forms send normalised bodies. *)
Definition bodies_are_normalised : Prop :=
  (forall StringToNumber res recarga st c body,
     In (Request c)
        (snd (Siniestros.handleSubmit StringToNumber res recarga st)) ->
     Siniestros.body_of c = Some body -> normalised body) /\
  (forall (Err : Type) (res : Settled unit Err) st c body,
     In (Request c)
        (ReportesDelito.o_effects (ReportesDelito.handleSubmit res st)) ->
     ReportesDelito.body_of c = Some body -> normalised body).

(** A value that is the id of an entry of a list: a number that is the id,
    or the text of the id. *)
Definition resolves (ids : list Z) (v : JsVal) : Prop :=
  exists z, In z ids /\ coincide v z = true.

(** The reading in which every failure reaches the user, as an alert or as
    the error of the page: on the crime-report page the load, the read of
    the reference list, the submission and the removal; on the ranking page
    the read of the tops. *)
Definition failures_are_shown : Prop :=
  (forall (Err : Type) (e : Err) st,
     let shown (o : ReportesDelito.Outcome) :=
       alerts (ReportesDelito.o_effects o) <> [] \/
       ReportesDelito.error (ReportesDelito.o_state o) <> None in
     shown (ReportesDelito.cargarDatos (Rejected e) st) /\
     shown (ReportesDelito.cargarAvenidas (Rejected e) st) /\
     shown (ReportesDelito.handleSubmit (Rejected e) st) /\
     (forall id, shown (ReportesDelito.handleDelete id true (Rejected e) st))) /\
  (forall (Comparacion Err : Type)
          (seguras peligrosas : Settled IndiceSeguridad.Body Err)
          (st : IndiceSeguridad.State Comparacion),
     is_rejected seguras || is_rejected peligrosas = true ->
     let out := IndiceSeguridad.cargarTops seguras peligrosas st in
     alerts (snd out) <> [] \/ IndiceSeguridad.error (fst out) <> None).

End Readings.

(** ** Scenarios used below *)

Module Escenarios.

Definition un_robo : ReportesDelito.Reporte :=
  ReportesDelito.mkReporte 1 "2025-03-01" "22:15" 2 "robo" "alta" None 1
    "Av. Perón".

Definition un_hurto : ReportesDelito.Reporte :=
  ReportesDelito.mkReporte 2 "2025-03-02" "09:30" 3 "hurto" "baja"
    (Some "billetera") 1 "Ruta 38".

(** The list read of the mount answers with two reports, so the page is on
    screen.  The user picks "hurto" in the filter of types and then, with
    the read for "hurto" still awaited, picks "robo"; the read for "robo"
    answers first. *)
Definition carrera : list (ReportesDelito.Event string) :=
  [ ReportesDelito.Settle 0
      (ReportesDelito.DeGetAll (Resolved [un_hurto; un_robo]));
    ReportesDelito.ChangeFiltro ReportesDelito.CTipoDelito "hurto";
    ReportesDelito.ChangeFiltro ReportesDelito.CTipoDelito "robo";
    ReportesDelito.Settle 3 (ReportesDelito.DeGetAll (Resolved [un_robo])) ].


Definition ruta_38 : ReportesDelito.Avenida :=
  ReportesDelito.mkAvenida 2 "Ruta 38".

(** The list read of the mount answers, and the reference list arrives with
    one street; the user opens the form for a new report, fills the date and
    the time and picks the street. *)
Definition borrador_listo : list (ReportesDelito.Event string) :=
  [ ReportesDelito.Settle 0 (ReportesDelito.DeGetAll (Resolved [un_robo]));
    ReportesDelito.Settle 0 (ReportesDelito.DeGetAvenidas (Resolved [ruta_38]));
    ReportesDelito.ClickNuevoReporte;
    ReportesDelito.ChangeForm ReportesDelito.CFecha "2025-03-01";
    ReportesDelito.ChangeForm ReportesDelito.CHora "22:15";
    ReportesDelito.ChangeForm ReportesDelito.CAvenida "2" ].

Definition pagina_lista : ReportesDelito.State :=
  ReportesDelito.view (ReportesDelito.run borrador_listo).

(** A report that another user filed, on a street of the reference list. *)
Definition un_asalto : ReportesDelito.Reporte :=
  ReportesDelito.mkReporte 3 "2025-03-03" "18:40" 2 "asalto" "media"
    (Some "en la parada") 5 "Ruta 38".

(** The list read of the mount answers with that report and the reference
    list arrives; the user opens the report with "Editar" and rewrites the
    description. *)
Definition edicion_lista : list (ReportesDelito.Event string) :=
  [ ReportesDelito.Settle 0 (ReportesDelito.DeGetAll (Resolved [un_asalto]));
    ReportesDelito.Settle 0 (ReportesDelito.DeGetAvenidas (Resolved [ruta_38]));
    ReportesDelito.ClickEditar un_asalto;
    ReportesDelito.ChangeForm ReportesDelito.CDescripcion
      "en la parada del 10" ].

(** The host's [Number] and [parseInt] on the texts used here: a text of
    digits, with or without a sign, is its number; the empty text is 0 for
    [Number] and [NaN] for [parseInt]; any other text is taken as [NaN]. *)
Definition digitos (s : string) : JsNumber :=
  if string_is_empty s then Fin 0
  else match NilZero.int_of_string s with
       | Some d => num_of_Z (Z.of_int d)
       | None => NaN
       end.

Definition entero (s : string) : JsNumber :=
  if string_is_empty s then NaN else digitos s.

(** The incident page once its first load has answered, with one street
    and one type of incident in its reference lists. *)
Definition siniestros_cargados : Siniestros.State :=
  fst (Siniestros.cargarDatosIniciales
         (Resolved (Some []))
         (Resolved (Some [Siniestros.mkReferencia 2 "Ruta 38"]))
         (Resolved (Some [Siniestros.mkReferencia 4 "Colisión"]))
         Siniestros.initial).

(** An incident draft with a street and a type picked and no notes. *)
Definition siniestro_listo : Siniestros.State :=
  Siniestros.onChange Siniestros.CTipo "4"
    (Siniestros.onChange Siniestros.CAvenida "2"
       (Siniestros.onChange Siniestros.CFecha "2025-03-01"
          siniestros_cargados)).

Definition sin_conexion : Siniestros.ApiError :=
  Siniestros.mkApiError None "Network Error".

End Escenarios.

(** ** More of the pages: what they show *)

(** *** The dashboard's colours and marks (frontend/src/pages/RutaSegura.jsx) *)

Module RutaSeguraVista.

(** [obtenerColorRiesgo] *)
Definition obtenerColorRiesgo (clasificacion : string) : string :=
  if String.eqb clasificacion "MUY PELIGROSA" then
    "bg-red-100 text-red-800 border-red-300"
  else if String.eqb clasificacion "PELIGROSA" then
    "bg-orange-100 text-orange-800 border-orange-300"
  else if String.eqb clasificacion "RIESGO MODERADO" then
    "bg-yellow-100 text-yellow-800 border-yellow-300"
  else if String.eqb clasificacion "SEGURA" then
    "bg-green-100 text-green-800 border-green-300"
  else "bg-gray-100 text-gray-800 border-gray-300".

(** [obtenerEmoji] *)
Definition obtenerEmoji (clasificacion : string) : string :=
  if String.eqb clasificacion "MUY PELIGROSA" then "🔴"
  else if String.eqb clasificacion "PELIGROSA" then "🟠"
  else if String.eqb clasificacion "RIESGO MODERADO" then "🟡"
  else if String.eqb clasificacion "SEGURA" then "🟢"
  else "⚪".

End RutaSeguraVista.

(** *** What the crime-report page returns *)

Module ReportesDelitoVista.

(** The modal of the form: its title, the text of its submit button and the
    draft its controls show. *)
Record Modal : Type := mkModal {
  m_titulo : string;
  m_boton : string;
  m_borrador : ReportesDelito.FormData
}.

(** What the component returns: the spinner alone, or the page with the
    banner when [error] is set, the reports of the table in the order of
    the list, the "No hay reportes delictivos" block, and the modal. *)
Inductive Vista : Type :=
| Cargando
| Pagina (banner : option string) (filas : list ReportesDelito.Reporte)
         (sin_reportes : bool) (modal : option Modal).

Definition lista_vacia (st : ReportesDelito.State) : bool :=
  Nat.eqb (length (ReportesDelito.reportes st)) 0.

(** [{error && (...)}]: an error that is the empty text shows nothing. *)
Definition banner_de (st : ReportesDelito.State) : option string :=
  match ReportesDelito.error st with
  | Some e => if string_is_empty e then None else Some e
  | None => None
  end.

Definition modal_de (st : ReportesDelito.State) : option Modal :=
  if ReportesDelito.showModal st then
    Some (mkModal
            match ReportesDelito.editingReporte st with
            | Some _ => "Editar Reporte"
            | None => "Nuevo Reporte Delictivo"
            end
            (match ReportesDelito.editingReporte st with
             | Some _ => "Actualizar"
             | None => "Crear"
             end ++ " Reporte")%string
            (ReportesDelito.formData st))
  else None.

Definition render (st : ReportesDelito.State) : Vista :=
  if ReportesDelito.loading st && lista_vacia st then Cargando
  else Pagina (banner_de st) (ReportesDelito.reportes st)
              (lista_vacia st && negb (ReportesDelito.loading st))
              (modal_de st).

(** The reads of the reference list among the effects, and the events that
    change a filter. *)
Definition es_GetAvenidas (e : Effect ReportesDelito.Call) : bool :=
  match e with
  | Request ReportesDelito.GetAvenidas => true
  | _ => false
  end.

Definition cambia_filtro {Err : Type} (ev : ReportesDelito.Event Err) : bool :=
  match ev with
  | ReportesDelito.ChangeFiltro c _ => ReportesDelito.es_filtro c
  | _ => false
  end.

End ReportesDelitoVista.

(** *** What the user can do on the crime-report page *)

Module Pantalla.

Section Eventos.

Variable Err : Type.

(** The component returns the page, not the spinner alone. *)
Definition en_pantalla (st : ReportesDelito.State) : bool :=
  match ReportesDelitoVista.render st with
  | ReportesDelitoVista.Cargando => false
  | ReportesDelitoVista.Pagina _ _ _ _ => true
  end.

(** The values of the options of the selects of the filter bar, and the
    value each one holds. *)
Definition opciones_de_filtro (st : ReportesDelito.State)
    (c : ReportesDelito.Campo) : list string :=
  match c with
  | ReportesDelito.CTipoDelito =>
      [""; "robo"; "asalto"; "hurto"; "vandalismo"; "otro"]
  | ReportesDelito.CNivelPeligrosidad => [""; "alta"; "media"; "baja"]
  | ReportesDelito.CAvenida => ReportesDelito.opciones_avenida st
  | _ => []
  end.

Definition valor_de_filtro (st : ReportesDelito.State)
    (c : ReportesDelito.Campo) : string :=
  match c with
  | ReportesDelito.CTipoDelito =>
      ReportesDelito.f_tipo_delito (ReportesDelito.filtros st)
  | ReportesDelito.CNivelPeligrosidad =>
      ReportesDelito.f_nivel_peligrosidad (ReportesDelito.filtros st)
  | ReportesDelito.CAvenida =>
      ReportesDelito.f_avenida_id (ReportesDelito.filtros st)
  | _ => ""
  end.

(** The values of the options of a select of the form; an input and the
    text area take any text. *)
Definition opciones_de_form (st : ReportesDelito.State)
    (c : ReportesDelito.Campo) : option (list string) :=
  match c with
  | ReportesDelito.CAvenida => Some (ReportesDelito.opciones_avenida st)
  | ReportesDelito.CTipoDelito =>
      Some ["robo"; "asalto"; "hurto"; "vandalismo"; "otro"]
  | ReportesDelito.CNivelPeligrosidad => Some ["alta"; "media"; "baja"]
  | _ => None
  end.

(** The kind of answer a call that is awaited can receive. *)
Definition responde (k : ReportesDelito.Continuation)
    (r : ReportesDelito.Respuesta Err) : bool :=
  match k, r with
  | ReportesDelito.AfterGetAll, ReportesDelito.DeGetAll _ => true
  | ReportesDelito.AfterGetAvenidas, ReportesDelito.DeGetAvenidas _ => true
  | ReportesDelito.AfterSave _, ReportesDelito.DeGuardar _ => true
  | ReportesDelito.AfterDelete _, ReportesDelito.DeGuardar _ => true
  | _, _ => false
  end.

(** The events that can happen to the page as it is.  A control exists
    when the component returns the page and not the spinner alone; the
    modal, while it is shown, covers the page, and the filter bar, "Nuevo
    Reporte" and the buttons of the rows are taken as out of reach; a select
    changes to one of its options, other than the one it holds; "Editar" and
    "Eliminar" belong to a row of the table; the controls of the form exist
    while the modal is shown; a call settles when it is awaited, with an
    answer of its kind. *)
Definition permitido (p : ReportesDelito.Page)
    (ev : ReportesDelito.Event Err) : Prop :=
  let st := ReportesDelito.view p in
  match ev with
  | ReportesDelito.ChangeFiltro c value =>
      en_pantalla st = true /\ ReportesDelito.showModal st = false /\
      ReportesDelito.es_filtro c = true /\
      In value (opciones_de_filtro st c) /\ value <> valor_de_filtro st c
  | ReportesDelito.ClickNuevoReporte =>
      en_pantalla st = true /\ ReportesDelito.showModal st = false
  | ReportesDelito.ClickEditar reporte =>
      en_pantalla st = true /\ ReportesDelito.showModal st = false /\
      In reporte (ReportesDelito.reportes st)
  | ReportesDelito.ClickEliminar id _ =>
      en_pantalla st = true /\ ReportesDelito.showModal st = false /\
      In id (map ReportesDelito.id (ReportesDelito.reportes st))
  | ReportesDelito.ChangeForm c value =>
      en_pantalla st = true /\ ReportesDelito.showModal st = true /\
      match opciones_de_form st c with
      | Some opciones => In value opciones
      | None => True
      end
  | ReportesDelito.ClickCancelar =>
      en_pantalla st = true /\ ReportesDelito.showModal st = true
  | ReportesDelito.SubmitForm =>
      en_pantalla st = true /\ ReportesDelito.showModal st = true
  | ReportesDelito.Settle i r =>
      exists a, nth_error (ReportesDelito.awaiting p) i = Some a /\
                responde (ReportesDelito.aw_then a) r = true
  end.

(** A sequence of events that can happen from a page on. *)
Fixpoint posible (p : ReportesDelito.Page)
    (events : list (ReportesDelito.Event Err)) : Prop :=
  match events with
  | [] => True
  | ev :: rest => permitido p ev /\ posible (ReportesDelito.step ev p) rest
  end.


End Eventos.

End Pantalla.

(** *** The headings of the incident form *)

Module SiniestrosVista.

(** [{form.id ? 'Editar Siniestro' : 'Crear Nuevo Siniestro'}] *)
Definition titulo (f : Siniestros.Form) : string :=
  match Siniestros.id_en_edicion f with
  | Some _ => "Editar Siniestro"
  | None => "Crear Nuevo Siniestro"
  end.

(** [{form.id ? 'Actualizar' : 'Crear'}], the text of the submit button. *)
Definition boton (f : Siniestros.Form) : string :=
  match Siniestros.id_en_edicion f with
  | Some _ => "Actualizar"
  | None => "Crear"
  end.

End SiniestrosVista.

(** ** The service layer: the addresses of [getAll] and of [count] *)

Module ApiService.

(** The [params] of a list read or of a count.  A key that is absent is
    [None]; the filters are texts, as the pages pass them. *)
Record Params : Type := mkParams {
  skip : option Z;
  limit : option Z;
  filtro1 : option string;
  filtro2 : option string;
  filtro3 : option string
}.

(** [if (v)] on a filter: present and not the empty text. *)
Definition presente (v : option string) : bool :=
  match v with
  | Some s => negb (string_is_empty s)
  | None => false
  end.

Definition texto (v : option string) : string :=
  match v with
  | Some s => s
  | None => ""
  end.

(** [{ skip = 0 }]: the default of a key that is absent. *)
Definition por_defecto (d : Z) (v : option Z) : Z :=
  match v with
  | Some z => z
  | None => d
  end.

Section Recurso.

(** [siniestrosService] and [reportesDelitoService] build their addresses
    the same way, each with its path and its three filters. *)
Variables (ruta clave1 clave2 clave3 : string).

(** The address of [getAll]: the page of results, then one [&clave=valor]
    for each filter that is present. *)
Definition getAll_url (params : Params) : string :=
  let url :=
    (ruta ++ "?skip=" ++ string_of_Z (por_defecto 0 (skip params))
          ++ "&limit=" ++ string_of_Z (por_defecto 100 (limit params)))%string in
  let url :=
    if presente (filtro1 params)
    then (url ++ "&" ++ clave1 ++ "=" ++ texto (filtro1 params))%string
    else url in
  let url :=
    if presente (filtro2 params)
    then (url ++ "&" ++ clave2 ++ "=" ++ texto (filtro2 params))%string
    else url in
  let url :=
    if presente (filtro3 params)
    then (url ++ "&" ++ clave3 ++ "=" ++ texto (filtro3 params))%string
    else url in
  url.

(** The [queryParams] of [count]: one [clave=valor] for each filter that is
    present. *)
Definition queryParams (params : Params) : list string :=
  (if presente (filtro1 params)
   then [(clave1 ++ "=" ++ texto (filtro1 params))%string] else [])
  ++ (if presente (filtro2 params)
      then [(clave2 ++ "=" ++ texto (filtro2 params))%string] else [])
  ++ (if presente (filtro3 params)
      then [(clave3 ++ "=" ++ texto (filtro3 params))%string] else []).

(** The address of [count]: the filters joined by [&] after a [?], when
    there is one. *)
Definition count_url (params : Params) : string :=
  let url := (ruta ++ "/count")%string in
  if Nat.ltb 0 (length (queryParams params))
  then (url ++ "?" ++ String.concat "&" (queryParams params))%string
  else url.

End Recurso.

Definition reportesDelito_getAll_url : Params -> string :=
  getAll_url "/reportes-delito" "avenida_id" "tipo_delito" "nivel_peligrosidad".

Definition reportesDelito_count_url : Params -> string :=
  count_url "/reportes-delito" "avenida_id" "tipo_delito" "nivel_peligrosidad".

Definition siniestros_getAll_url : Params -> string :=
  getAll_url "/siniestros" "avenida_id" "tipo_id" "nivel_gravedad".

Definition siniestros_count_url : Params -> string :=
  count_url "/siniestros" "avenida_id" "tipo_id" "nivel_gravedad".

(** The object that [cargarDatos] of the crime-report page hands to
    [reportesDelitoService.getAll]: the filters that are set, no [skip] and
    no [limit]. *)
Definition de_cargarDatos (p : ReportesDelito.Params) : Params :=
  mkParams None None (ReportesDelito.p_avenida_id p)
    (ReportesDelito.p_tipo_delito p) (ReportesDelito.p_nivel_peligrosidad p).

(** The address the crime-report page reads its list from, for the filters
    [cargarDatos] sees. *)
Definition url_de_carga (f : ReportesDelito.Filtros) : string :=
  reportesDelito_getAll_url (de_cargarDatos (ReportesDelito.params_of f)).

End ApiService.

(** ** More scenarios *)

Module MasEscenarios.

(** An incident as the backend answers it, with the time of day in its
    date and no notes. *)
Definition un_siniestro : Siniestros.Siniestro :=
  Siniestros.mkSiniestro 7 (Some "2025-03-01T08:30:00") (Some "08:30")
    (JNum (num_of_Z 2)) (JNum (num_of_Z 4)) (Some "alta")
    (JNum (num_of_Z 1)) (JNum (num_of_Z 3)) (JNum (num_of_Z 2)) None.

(** The incident page once its first load has answered with that incident,
    its street and its type. *)
Definition pagina_con_siniestro : Siniestros.State :=
  fst (Siniestros.cargarDatosIniciales
         (Resolved (Some [un_siniestro]))
         (Resolved (Some [Siniestros.mkReferencia 2 "Ruta 38"]))
         (Resolved (Some [Siniestros.mkReferencia 4 "Colisión"]))
         Siniestros.initial).

End MasEscenarios.
(** * What the pages do *)

(** ** The dashboard's batch load *)

Lemma cargarDatos_all_resolved
    (Estadisticas Avenida Err : Type)
    (s : Estadisticas) (p g t : RutaSegura.AvenidasBody Avenida)
    (st : RutaSegura.State Estadisticas Avenida) :
  RutaSegura.cargarDatos (Err := Err)
    (Resolved s) (Resolved p) (Resolved g) (Resolved t) st
  = (RutaSegura.mkState (Some s) (RutaSegura.avenidas p)
       (RutaSegura.avenidas g) (RutaSegura.avenidas t) false None,
     [Request RutaSegura.GetEstadisticas; Request RutaSegura.GetTopPeligrosas;
      Request RutaSegura.GetTopSeguras; Request RutaSegura.GetIndice]).
Proof. reflexivity. Qed.

Lemma promise_all_rejects
    (Estadisticas Avenida Err : Type)
    (stats : Settled Estadisticas Err)
    (p g t : Settled (RutaSegura.AvenidasBody Avenida) Err) :
  RutaSegura.some_read_rejected stats p g t = true ->
  exists e, RutaSegura.promise_all stats p g t = Rejected e.
Proof.
  unfold RutaSegura.some_read_rejected.
  destruct stats, p, g, t; simpl; intros H;
    try discriminate H; eexists; reflexivity.
Qed.

Lemma cargarTops_rejects (Err : Type)
    (seguras peligrosas : Settled IndiceSeguridad.Body Err) :
  is_rejected seguras || is_rejected peligrosas = true ->
  forall (Comparacion : Type) (st : IndiceSeguridad.State Comparacion),
    IndiceSeguridad.cargarTops seguras peligrosas st
    = (st, [Request (IndiceSeguridad.GetTopAvenidasSeguras 5);
            Request (IndiceSeguridad.GetTopAvenidasPeligrosas 5);
            ConsoleError "Error al cargar tops:"]).
Proof.
  destruct seguras, peligrosas; cbn; intros H; try discriminate H; reflexivity.
Qed.

(** C1 (as the code has it): the reads of a batch are awaited together.
    On the dashboard, when at least one of the four reads fails, whatever
    the others did, no dataset of the batch is committed: the statistics,
    the two top-5 lists and the full list keep the values they had, one
    error message is set, loading ends, and the component renders the error
    box alone.  On the ranking page the two reads of [cargarTops] go the same
    way: when one of them fails neither list is written, and nothing but the
    console tells of it. *)
Theorem batch_load_is_all_or_nothing
    (Estadisticas Avenida Comparacion Err : Type) :
  (forall (stats : Settled Estadisticas Err)
          (p g t : Settled (RutaSegura.AvenidasBody Avenida) Err)
          (st : RutaSegura.State Estadisticas Avenida),
     RutaSegura.some_read_rejected stats p g t = true ->
     let st' := fst (RutaSegura.cargarDatos stats p g t st) in
     RutaSegura.estadisticas st' = RutaSegura.estadisticas st /\
     RutaSegura.topPeligrosas st' = RutaSegura.topPeligrosas st /\
     RutaSegura.topSeguras st' = RutaSegura.topSeguras st /\
     RutaSegura.todasAvenidas st' = RutaSegura.todasAvenidas st /\
     RutaSegura.cargando st' = false /\
     RutaSegura.error st'
     = Some "Error al cargar los datos. Por favor, intenta nuevamente." /\
     RutaSegura.render st'
     = RutaSegura.ErrorBox
         "Error al cargar los datos. Por favor, intenta nuevamente.") /\
  (forall (seguras peligrosas : Settled IndiceSeguridad.Body Err)
          (st : IndiceSeguridad.State Comparacion),
     is_rejected seguras || is_rejected peligrosas = true ->
     let out := IndiceSeguridad.cargarTops seguras peligrosas st in
     fst out = st /\
     alerts (snd out) = [] /\
     requests (snd out)
     = [IndiceSeguridad.GetTopAvenidasSeguras 5;
        IndiceSeguridad.GetTopAvenidasPeligrosas 5]).
Proof.
  split.
  - intros stats p g t st H.
    destruct (promise_all_rejects stats p g t H) as [e He].
    unfold RutaSegura.cargarDatos. rewrite He. cbn.
    repeat split; reflexivity.
  - intros seguras peligrosas st H. cbv zeta.
    rewrite (cargarTops_rejects _ _ H). repeat split.
Qed.

Lemma batch_load_is_all_or_nothing_witness :
  let stats : Settled nat string := Rejected "503" in
  let p := Resolved (RutaSegura.mkBody ["Av. Peron"; "Ruta 38"]) in
  let g := Resolved (RutaSegura.mkBody ["Calle Rivadavia"]) in
  let t := Resolved (RutaSegura.mkBody ["Av. Peron"; "Ruta 38"; "Calle Rivadavia"]) in
  let st' := fst (RutaSegura.cargarDatos stats p g t RutaSegura.initial) in
  RutaSegura.some_read_rejected stats p g t = true /\
  RutaSegura.estadisticas st' = None /\
  RutaSegura.topPeligrosas st' = [] /\
  RutaSegura.topSeguras st' = [] /\
  RutaSegura.todasAvenidas st' = [] /\
  RutaSegura.cargando st' = false /\
  RutaSegura.error st'
    = Some "Error al cargar los datos. Por favor, intenta nuevamente." /\
  RutaSegura.render st'
    = RutaSegura.ErrorBox
        "Error al cargar los datos. Por favor, intenta nuevamente.".
Proof.
  cbv zeta. split; [ reflexivity | ].
  apply (proj1 (batch_load_is_all_or_nothing nat string string string)
           (Rejected "503")
           (Resolved (RutaSegura.mkBody ["Av. Peron"; "Ruta 38"]))
           (Resolved (RutaSegura.mkBody ["Calle Rivadavia"]))
           (Resolved (RutaSegura.mkBody ["Av. Peron"; "Ruta 38"; "Calle Rivadavia"]))
           RutaSegura.initial).
  reflexivity.
Defined.

(** C1 (as the spec has it) fails: on mount, with the statistics read
    failing and the three other reads succeeding, the two top-5 lists and
    the full list stay empty and the page renders the error box, so the
    reads are not independent of each other. *)
Lemma failed_estadisticas_blocks_the_tops :
  let st' :=
    fst (RutaSegura.cargarDatos
           (Rejected "503" : Settled nat string)
           (Resolved (RutaSegura.mkBody ["Av. Peron"; "Ruta 38"]))
           (Resolved (RutaSegura.mkBody ["Calle Rivadavia"]))
           (Resolved (RutaSegura.mkBody ["Av. Peron"; "Ruta 38"; "Calle Rivadavia"]))
           RutaSegura.initial) in
  RutaSegura.topPeligrosas st' = [] /\
  RutaSegura.topSeguras st' = [] /\
  RutaSegura.todasAvenidas st' = [] /\
  RutaSegura.render st'
    = RutaSegura.ErrorBox
        "Error al cargar los datos. Por favor, intenta nuevamente." /\
  ~ @RutaSegura.reads_are_independent nat string string.
Proof.
  cbn. repeat split.
  intros H.
  specialize (H (Rejected "503")
                (Resolved (RutaSegura.mkBody ["Av. Peron"; "Ruta 38"]))
                (Resolved (RutaSegura.mkBody ["Calle Rivadavia"]))
                (Resolved (RutaSegura.mkBody ["Av. Peron"]))
                RutaSegura.initial).
  cbn in H. destruct H as (_ & Hp & _).
  specialize (Hp _ eq_refl). discriminate Hp.
Qed.

(** ** The ranking page: comparison *)

Lemma string_is_empty_iff (s : string) :
  string_is_empty s = true <-> s = "".
Proof. destruct s; simpl; split; intros H; congruence. Qed.

(** C2: when a selection is unset or the two selections are equal,
    [compararAvenidas] shows one validation message, sends nothing and leaves
    the state as it is; the comparison read goes out only when the two
    selections are set and differ, and then it is the only request sent. *)
Theorem compararAvenidas_validates
    (Comparacion Err : Type) (parseInt : string -> JsNumber)
    (res : Settled Comparacion Err)
    (st : IndiceSeguridad.State Comparacion) :
  let a := IndiceSeguridad.avenida1 st in
  let b := IndiceSeguridad.avenida2 st in
  let out := IndiceSeguridad.compararAvenidas parseInt res st in
  (a = "" \/ b = "" \/ a = b ->
     requests (snd out) = [] /\
     fst out = st /\
     (snd out = [Alert "Por favor selecciona dos avenidas para comparar"] \/
      snd out = [Alert "Debes seleccionar dos avenidas diferentes"])) /\
  (requests (snd out) <> [] -> a <> "" /\ b <> "" /\ a <> b) /\
  (a <> "" -> b <> "" -> a <> b ->
     requests (snd out)
     = [IndiceSeguridad.CompararAvenidas (parseInt a) (parseInt b)]).
Proof.
  cbv zeta. unfold IndiceSeguridad.compararAvenidas.
  destruct (string_is_empty (IndiceSeguridad.avenida1 st)) eqn:E1;
    [ apply string_is_empty_iff in E1
    | destruct (string_is_empty (IndiceSeguridad.avenida2 st)) eqn:E2;
      [ apply string_is_empty_iff in E2
      | destruct (String.eqb_spec (IndiceSeguridad.avenida1 st)
                                  (IndiceSeguridad.avenida2 st)) as [E3|E3] ] ];
    cbn [orb fst snd].
  - (* avenida1 unset *)
    repeat split; auto; cbn; intros; congruence.
  - (* avenida2 unset *)
    repeat split; auto; cbn; intros; congruence.
  - (* equal selections *)
    repeat split; auto; cbn; intros; congruence.
  - (* set and distinct *)
    assert (N1 : IndiceSeguridad.avenida1 st <> "")
      by (intros K; apply string_is_empty_iff in K; congruence).
    assert (N2 : IndiceSeguridad.avenida2 st <> "")
      by (intros K; apply string_is_empty_iff in K; congruence).
    split; [ intros [K | [K | K]]; contradiction | ].
    split; [ intros _; auto | ].
    intros _ _ _. destruct res; reflexivity.
Qed.

Lemma compararAvenidas_validates_witness :
  let st := IndiceSeguridad.setAvenida2 "2"
              (IndiceSeguridad.setAvenida1 "2"
                 (IndiceSeguridad.initial (Comparacion := string))) in
  let out := IndiceSeguridad.compararAvenidas Escenarios.entero
               (Resolved "Av. Peron es mas peligrosa" : Settled string string)
               st in
  IndiceSeguridad.avenida1 st = IndiceSeguridad.avenida2 st /\
  requests (snd out) = [] /\
  fst out = st /\
  (snd out = [Alert "Por favor selecciona dos avenidas para comparar"] \/
   snd out = [Alert "Debes seleccionar dos avenidas diferentes"]).
Proof.
  cbv zeta. split; [ reflexivity | ].
  apply (compararAvenidas_validates Escenarios.entero
           (Resolved "Av. Peron es mas peligrosa" : Settled string string)
           (IndiceSeguridad.setAvenida2 "2"
              (IndiceSeguridad.setAvenida1 "2" IndiceSeguridad.initial))).
  right; right; reflexivity.
Defined.

Example compararAvenidas_distinct :
  let st := IndiceSeguridad.setAvenida2 "3"
              (IndiceSeguridad.setAvenida1 "1"
                 (IndiceSeguridad.initial (Comparacion := string))) in
  IndiceSeguridad.compararAvenidas Escenarios.entero
    (Resolved "Av. Peron es mas peligrosa" : Settled string string) st
  = (IndiceSeguridad.setResultadoComparacion
       (Some "Av. Peron es mas peligrosa") st,
     [Request (IndiceSeguridad.CompararAvenidas (num_of_Z 1) (num_of_Z 3))]).
Proof. reflexivity. Qed.

(** ** The ranking page: loading the index *)

(** C9: when the read of the index fails, whatever the list held, the list
    is replaced by the three example records (Av. Perón 8.5, Calle Rivadavia
    3.2, Ruta 38 6.8), the error message is set, and the page is rendered
    with the banner and with these three records in the table. *)
Theorem cargarDatos_failure_shows_example_records
    (Comparacion Err : Type) (e : Err)
    (st : IndiceSeguridad.State Comparacion) :
  let st' := fst (IndiceSeguridad.cargarDatos (Rejected e) st) in
  IndiceSeguridad.avenidas st' = IndiceSeguridad.datos_de_ejemplo /\
  IndiceSeguridad.error st' = Some IndiceSeguridad.error_de_carga /\
  IndiceSeguridad.render st'
  = IndiceSeguridad.Page (Some IndiceSeguridad.error_de_carga)
      (IndiceSeguridad.topSeguras st) (IndiceSeguridad.topPeligrosas st)
      (map IndiceSeguridad.fila IndiceSeguridad.datos_de_ejemplo) /\
  IndiceSeguridad.nombres_mostrados st'
  = ["Av. Perón"; "Calle Rivadavia"; "Ruta 38"] /\
  IndiceSeguridad.indices_mostrados st'
  = [JNum (Fin 8.5); JNum (Fin 3.2); JNum (Fin 6.8)].
Proof. cbv zeta. repeat split; reflexivity. Qed.

(** C8 (as the code has it): the page never reorders the list it holds.
    Whatever list the index read answers with and whatever the sort key,
    the table shows the streets in the order of the answer, and the sort key
    travels to the backend as the [orden] parameter of the request. *)
Theorem tabla_keeps_the_order_received
    (Comparacion Err : Type) (response : IndiceSeguridad.Body)
    (st : IndiceSeguridad.State Comparacion) :
  let out := IndiceSeguridad.cargarDatos (Err := Err) (Resolved response) st in
  IndiceSeguridad.nombres_mostrados (fst out)
  = map IndiceSeguridad.nombre (IndiceSeguridad.avenidas_of response) /\
  IndiceSeguridad.indices_mostrados (fst out)
  = map (fun a => or_else (IndiceSeguridad.indice_peligrosidad a)
                          (JNum (Fin 0)))
        (IndiceSeguridad.avenidas_of response) /\
  requests (snd out)
  = [IndiceSeguridad.GetIndiceSeguridad
       (IndiceSeguridad.ordenamiento st) (IndiceSeguridad.params_limite st)].
Proof.
  cbv zeta. unfold IndiceSeguridad.nombres_mostrados,
    IndiceSeguridad.indices_mostrados, IndiceSeguridad.tabla.
  cbn. rewrite !map_map. repeat split; reflexivity.
Qed.

(** C8 (as the spec has it) fails: the three streets A (Av. Perón, 8.5),
    B (Calle Rivadavia, 3.2) and C (Ruta 38, 6.8) that the page holds after a
    failed load, under the sort key ["peligrosidad"], are shown in the order
    A, B, C (8.5, 3.2, 6.8) and not in the order A, C, B. *)
Lemma example_records_shown_unsorted :
  let st := fst (IndiceSeguridad.cargarDatos
                   (Rejected "Network Error" : Settled IndiceSeguridad.Body string)
                   (IndiceSeguridad.initial (Comparacion := string))) in
  IndiceSeguridad.ordenamiento st = "peligrosidad" /\
  IndiceSeguridad.nombres_mostrados st
  = ["Av. Perón"; "Calle Rivadavia"; "Ruta 38"] /\
  IndiceSeguridad.indices_mostrados st
  = [JNum (Fin 8.5); JNum (Fin 3.2); JNum (Fin 6.8)] /\
  IndiceSeguridad.nombres_mostrados st
  <> ["Av. Perón"; "Ruta 38"; "Calle Rivadavia"] /\
  IndiceSeguridad.indices_mostrados st
  <> [JNum (Fin 8.5); JNum (Fin 6.8); JNum (Fin 3.2)].
Proof.
  cbv zeta. repeat split; try reflexivity; intros H; discriminate H.
Qed.

(** ** The crime-report page: loads and changes of filter *)

Lemma run_snoc (Err : Type) (events : list (ReportesDelito.Event Err))
    (ev : ReportesDelito.Event Err) :
  ReportesDelito.run (events ++ [ev])
  = ReportesDelito.step ev (ReportesDelito.run events).
Proof.
  unfold ReportesDelito.run, ReportesDelito.run_from.
  rewrite fold_left_app. reflexivity.
Qed.


Ltac en_escena :=
  cbn;
  repeat match goal with
  | |- _ /\ _ => split
  | |- True => exact I
  | |- exists _, _ => eexists
  | |- _ = _ => reflexivity
  | |- _ <> _ => discriminate
  | |- In _ _ => simpl; tauto
  | |- _ \/ _ => tauto
  end.




(** ** The crime-report page: who a report belongs to *)

Lemma usuario_invariant_weaken
    (Err : Type) (events : list (ReportesDelito.Event Err))
    (ev : ReportesDelito.Event Err) (p : ReportesDelito.Page) :
  ReportesDelito.usuario_invariant events p ->
  ReportesDelito.usuario_invariant (events ++ [ev]) p.
Proof.
  intros (H1 & H3 & H4). repeat split; auto.
  - destruct (ReportesDelito.editingReporte (ReportesDelito.view p)); auto.
    destruct H1 as [Hin Hu]. split; auto. apply in_or_app; auto.
  - intros i body Hb. destruct (H4 i body Hb) as (r & Hr & Hi & Hu).
    exists r. repeat split; auto. apply in_or_app; auto.
Qed.

Ltac usuario_crush :=
  repeat match goal with
  | H : In (Request _) (_ ++ _) |- _ => apply in_app_or in H; destruct H
  | H : In (Request _) (_ :: _) |- _ => simpl in H; destruct H
  | H : In (Request _) [] |- _ => contradiction H
  | H : _ \/ _ |- _ => destruct H
  | H : False |- _ => contradiction H
  | H : @eq (Effect _) _ _ |- _ => discriminate H || (injection H as H)
  | H : @eq ReportesDelito.Call _ _ |- _ => discriminate H || (injection H as H)
  end; subst; cbn in *; eauto.

Lemma usuario_invariant_mounted (Err : Type) :
  ReportesDelito.usuario_invariant (@nil (ReportesDelito.Event Err))
    ReportesDelito.mounted.
Proof.
  unfold ReportesDelito.usuario_invariant. cbn.
  repeat split; intros; usuario_crush; try discriminate.
Qed.

Lemma usuario_invariant_step
    (Err : Type) (events : list (ReportesDelito.Event Err))
    (ev : ReportesDelito.Event Err) (p : ReportesDelito.Page) :
  ReportesDelito.usuario_invariant events p ->
  ReportesDelito.usuario_invariant (events ++ [ev]) (ReportesDelito.step ev p).
Proof.
  intros H.
  assert (Hlast : In ev (events ++ [ev])) by (apply in_or_app; simpl; auto).
  apply usuario_invariant_weaken with (ev := ev) in H.
  destruct H as (H1 & H3 & H4).
  destruct p as [st aw hist]. cbn in H1, H3, H4.
  destruct ev as [c v | c v | | r | | | i confirmed | i resp]; cbn.
  - (* a filter changes *)
    destruct c; cbn; unfold ReportesDelito.usuario_invariant; cbn;
      repeat split; auto; intros; usuario_crush.
  - (* a control of the form changes *)
    unfold ReportesDelito.usuario_invariant; cbn. rewrite app_nil_r.
    repeat split; auto. destruct c; exact H1.
  - (* "Nuevo Reporte" *)
    unfold ReportesDelito.usuario_invariant; cbn. rewrite app_nil_r.
    repeat split; auto.
  - (* "Editar" *)
    unfold ReportesDelito.usuario_invariant; cbn. rewrite app_nil_r.
    repeat split; auto.
  - (* "Cancelar" *)
    unfold ReportesDelito.usuario_invariant; cbn. rewrite app_nil_r.
    repeat split; auto.
  - (* the form is submitted *)
    unfold ReportesDelito.form_onSubmit.
    destruct (ReportesDelito.primer_requerido_vacio st) as [campo|];
      unfold ReportesDelito.usuario_invariant; cbn.
    + repeat split; auto; intros; usuario_crush.
    + destruct (ReportesDelito.editingReporte st) as [r|] eqn:Ed; cbn.
      * destruct H1 as [Hin Hu].
        repeat split; auto; intros; usuario_crush.
      * repeat split; auto; intros; usuario_crush.
  - (* "Eliminar" *)
    destruct confirmed; unfold ReportesDelito.usuario_invariant; cbn;
      [ | rewrite app_nil_r ]; repeat split; auto; intros; usuario_crush.
  - (* a call settles *)
    destruct (nth_error aw i) as [a|];
      [ | unfold ReportesDelito.usuario_invariant; cbn; auto ].
    destruct (ReportesDelito.aw_then a) as [ | | f | f ];
      destruct resp as [res | res | res]; cbn;
      try (unfold ReportesDelito.usuario_invariant; cbn; auto; fail);
      destruct res as [x | e]; unfold ReportesDelito.usuario_invariant; cbn;
      try rewrite app_nil_r;
      repeat split; auto; intros; usuario_crush.
Qed.

Lemma usuario_invariant_run
    (Err : Type) (events : list (ReportesDelito.Event Err)) :
  ReportesDelito.usuario_invariant events (ReportesDelito.run events).
Proof.
  induction events as [|ev events IH] using rev_ind.
  - apply usuario_invariant_mounted.
  - rewrite run_snoc. apply usuario_invariant_step. exact IH.
Qed.

(** The two ways to a request from the form can happen on the page: a new
    report filled in and submitted, and a report of another user opened
    with "Editar", changed and submitted. *)
Lemma borrador_listo_posible :
  Pantalla.posible ReportesDelito.mounted
    (Escenarios.borrador_listo ++ [ReportesDelito.SubmitForm]).
Proof. en_escena. Qed.

Lemma edicion_lista_posible :
  Pantalla.posible ReportesDelito.mounted
    (Escenarios.edicion_lista ++ [ReportesDelito.SubmitForm]).
Proof. en_escena. Qed.

(** C10: whatever the user does on the page, and whatever has happened
    before.  Every report that the form has created was sent with
    [usuario_id] 1, and every update that the form has sent is for a report
    that was opened with "Editar" and carries that report's own
    [usuario_id].  When the form is submitted now and no required control
    holds it back, one request goes out: with no report being edited, the
    creation of the draft, whose [usuario_id] is 1; with a report being
    edited, the update of that report with the draft, whose [usuario_id] is
    that report's.  "Editar" on a report puts that report's [usuario_id] in
    the draft; "Nuevo Reporte" puts 1 there; no control of the form changes
    it.  The initial draft and the draft after [resetForm] carry
    [usuario_id] 1. *)
Theorem created_reports_carry_usuario_1
    (Err : Type) (events : list (ReportesDelito.Event Err)) :
  let p := ReportesDelito.run events in
  let st := ReportesDelito.view p in
  let draft := ReportesDelito.formData st in
  (forall body,
     In (Request (ReportesDelito.Create body)) (ReportesDelito.history p) ->
     ReportesDelito.fd_usuario_id body = 1%Z) /\
  (forall i body,
     In (Request (ReportesDelito.Update i body)) (ReportesDelito.history p) ->
     exists r, In (ReportesDelito.ClickEditar r) events /\
               i = ReportesDelito.id r /\
               ReportesDelito.fd_usuario_id body = ReportesDelito.usuario_id r) /\
  (ReportesDelito.primer_requerido_vacio st = None ->
   ReportesDelito.editingReporte st = None ->
   ReportesDelito.history
     (ReportesDelito.step (Err := Err) ReportesDelito.SubmitForm p)
   = ReportesDelito.history p ++ [Request (ReportesDelito.Create draft)] /\
   ReportesDelito.fd_usuario_id draft = 1%Z) /\
  (forall r,
     ReportesDelito.primer_requerido_vacio st = None ->
     ReportesDelito.editingReporte st = Some r ->
     ReportesDelito.history
     (ReportesDelito.step (Err := Err) ReportesDelito.SubmitForm p)
     = ReportesDelito.history p
       ++ [Request (ReportesDelito.Update (ReportesDelito.id r) draft)] /\
     ReportesDelito.fd_usuario_id draft = ReportesDelito.usuario_id r) /\
  (forall r,
     let q := ReportesDelito.view
                (ReportesDelito.step (Err := Err)
                   (ReportesDelito.ClickEditar r) p) in
     ReportesDelito.editingReporte q = Some r /\
     ReportesDelito.fd_usuario_id (ReportesDelito.formData q)
     = ReportesDelito.usuario_id r /\
     ReportesDelito.showModal q = true) /\
  (let q := ReportesDelito.view
              (ReportesDelito.step (Err := Err)
                 ReportesDelito.ClickNuevoReporte p) in
   ReportesDelito.editingReporte q = None /\
   ReportesDelito.fd_usuario_id (ReportesDelito.formData q) = 1%Z /\
   ReportesDelito.showModal q = true) /\
  (forall c value,
     let q := ReportesDelito.view
                (ReportesDelito.step (Err := Err)
                   (ReportesDelito.ChangeForm c value) p) in
     ReportesDelito.fd_usuario_id (ReportesDelito.formData q)
     = ReportesDelito.fd_usuario_id draft /\
     ReportesDelito.editingReporte q = ReportesDelito.editingReporte st) /\
  ReportesDelito.fd_usuario_id
    (ReportesDelito.formData ReportesDelito.initial) = 1%Z /\
  (forall st,
     ReportesDelito.fd_usuario_id
       (ReportesDelito.formData (ReportesDelito.resetForm st)) = 1%Z /\
     ReportesDelito.editingReporte (ReportesDelito.resetForm st) = None).
Proof.
  cbv zeta. destruct (usuario_invariant_run events) as (H1 & H3 & H4).
  split; [ exact H3 | ]. split; [ exact H4 | ].
  split; [ | split; [ | split; [ | split; [ | split; [ | split ] ] ] ] ].
  - intros V E. rewrite E in H1. split; [ | exact H1 ].
    cbn. unfold ReportesDelito.form_onSubmit,
      ReportesDelito.handleSubmit_start. rewrite V, E. reflexivity.
  - intros r V E. rewrite E in H1. split; [ | exact (proj2 H1) ].
    cbn. unfold ReportesDelito.form_onSubmit,
      ReportesDelito.handleSubmit_start. rewrite V, E. reflexivity.
  - intros r. cbn. repeat split.
  - cbn. repeat split.
  - intros c value. destruct c; cbn; split; reflexivity.
  - reflexivity.
  - intros st. split; reflexivity.
Qed.

Lemma created_reports_carry_usuario_1_witness :
  let p := ReportesDelito.run Escenarios.borrador_listo in
  let e := ReportesDelito.run Escenarios.edicion_lista in
  Pantalla.posible ReportesDelito.mounted
    (Escenarios.borrador_listo ++ [ReportesDelito.SubmitForm]) /\
  Pantalla.posible ReportesDelito.mounted
    (Escenarios.edicion_lista ++ [ReportesDelito.SubmitForm]) /\
  ReportesDelito.primer_requerido_vacio (ReportesDelito.view p) = None /\
  ReportesDelito.editingReporte (ReportesDelito.view p) = None /\
  ReportesDelito.history
    (ReportesDelito.step (Err := string) ReportesDelito.SubmitForm p)
  = ReportesDelito.history p
    ++ [Request
          (ReportesDelito.Create
             (ReportesDelito.mkFormData "2025-03-01" "22:15" (JStr "2")
                "robo" "media" "" 1))] /\
  ReportesDelito.primer_requerido_vacio (ReportesDelito.view e) = None /\
  ReportesDelito.editingReporte (ReportesDelito.view e)
  = Some Escenarios.un_asalto /\
  ReportesDelito.history
    (ReportesDelito.step (Err := string) ReportesDelito.SubmitForm e)
  = ReportesDelito.history e
    ++ [Request
          (ReportesDelito.Update 3
             (ReportesDelito.mkFormData "2025-03-03" "18:40"
                (JNum (num_of_Z 2)) "asalto" "media" "en la parada del 10"
                5))].
Proof.
  cbv zeta.
  split; [ en_escena | ]. split; [ en_escena | ].
  split; [ reflexivity | ]. split; [ reflexivity | ].
  split.
  - exact (proj1 (proj1 (proj2 (proj2
             (created_reports_carry_usuario_1 Escenarios.borrador_listo)))
             eq_refl eq_refl)).
  - split; [ reflexivity | ]. split; [ reflexivity | ].
    exact (proj1 (proj1 (proj2 (proj2 (proj2
             (created_reports_carry_usuario_1 Escenarios.edicion_lista))))
             Escenarios.un_asalto eq_refl eq_refl)).
Defined.

(** ** What the forms send *)

Lemma texto_o_null_not_empty (s : string) :
  Siniestros.texto_o_null s <> JStr "".
Proof.
  unfold Siniestros.texto_o_null, or_else. destruct s; cbn; congruence.
Qed.

Ltac pick_field :=
  repeat match goal with
  | H : In _ (_ :: _) |- _ => simpl in H; destruct H
  | H : In _ [] |- _ => contradiction H
  | H : False |- _ => contradiction H
  | H : _ \/ _ |- _ => destruct H
  | H : (_, _) = (_, _) |- _ => injection H as ? ?; subst
  | H : @eq string _ _ |- _ => discriminate H
  | H : @eq string ?x _ |- _ => is_var x; subst x
  | H : @eq string _ ?x |- _ => is_var x; subst x
  end; subst.

Lemma siniestros_payload_normalised
    (StringToNumber : string -> JsNumber) (f : Siniestros.Form) :
  Readings.normalised
    (Siniestros.body_fields (Siniestros.payload_of StringToNumber f)).
Proof.
  split; intros k v Hk Hv; unfold Readings.foreign_keys,
    Readings.optional_texts, Siniestros.body_fields in *; cbn in Hv.
  - pick_field; try reflexivity.
  - pick_field; apply texto_o_null_not_empty.
Qed.

Lemma siniestros_handleSubmit_request
    (StringToNumber : string -> JsNumber)
    (res : Settled unit Siniestros.ApiError)
    (recarga : Settled (option (list Siniestros.Siniestro)) Siniestros.ApiError)
    (st : Siniestros.State) (c : Siniestros.Call)
    (body : list (string * JsVal)) :
  In (Request c) (snd (Siniestros.handleSubmit StringToNumber res recarga st)) ->
  Siniestros.body_of c = Some body ->
  body = Siniestros.body_fields
           (Siniestros.payload_of StringToNumber (Siniestros.form st)).
Proof.
  unfold Siniestros.handleSubmit. intros Hin Hb.
  destruct res as [u | err]; destruct recarga as [data | err'];
    destruct (Siniestros.id_en_edicion _); cbn in Hin;
    repeat match goal with
    | H : _ \/ _ |- _ => destruct H
    | H : False |- _ => contradiction H
    | H : @eq (Effect _) _ _ |- _ => discriminate H || (injection H as H)
    end; subst; cbn in Hb; congruence.
Qed.

(** C4 (as the code has it): the incident form builds its body: whatever
    the draft holds, [avenida_id] and [tipo_id] travel as numbers (the
    [Number] of the draft's value) and [observaciones] travels as [null] when
    it is empty, never as the empty text.  The crime-report form sends its
    draft as it is: the body of the creation or of the update is the draft
    itself, field by field. *)
Theorem bodies_sent_by_the_forms
    (StringToNumber : string -> JsNumber) (Err : Type)
    (res : Settled unit Siniestros.ApiError)
    (recarga : Settled (option (list Siniestros.Siniestro)) Siniestros.ApiError)
    (st : Siniestros.State)
    (res' : Settled unit Err) (st' : ReportesDelito.State) :
  (forall c body,
     In (Request c)
        (snd (Siniestros.handleSubmit StringToNumber res recarga st)) ->
     Siniestros.body_of c = Some body ->
     Readings.normalised body /\
     In ("avenida_id",
         JNum (Number StringToNumber (Siniestros.f_avenida_id (Siniestros.form st))))
        body /\
     In ("tipo_id",
         JNum (Number StringToNumber (Siniestros.f_tipo_id (Siniestros.form st))))
        body /\
     In ("observaciones",
         Siniestros.texto_o_null (Siniestros.f_observaciones (Siniestros.form st)))
        body) /\
  (forall c body,
     In (Request c)
        (ReportesDelito.o_effects (ReportesDelito.handleSubmit res' st')) ->
     ReportesDelito.body_of c = Some body ->
     body = ReportesDelito.body_fields (ReportesDelito.formData st')).
Proof.
  split.
  - intros c body Hin Hb.
    rewrite (siniestros_handleSubmit_request _ _ _ _ _ Hin Hb).
    split; [apply siniestros_payload_normalised | ].
    cbn. repeat split; auto 10.
  - intros c body Hin Hb. unfold ReportesDelito.handleSubmit,
      ReportesDelito.settledBy, ReportesDelito.handleSubmit_start in Hin.
    destruct res' as [u | e];
      destruct (ReportesDelito.editingReporte st') as [r|]; cbn in Hin;
      repeat match goal with
      | H : _ \/ _ |- _ => destruct H
      | H : False |- _ => contradiction H
      | H : @eq (Effect _) _ _ |- _ => discriminate H || (injection H as H)
      end; subst; cbn in Hb; congruence.
Qed.

(** C4 (as the spec has it) fails on the crime-report form: with the street
    "2" picked in the select and the description left empty, the creation
    carries [avenida_id] as the text "2", not as a number, and [descripcion]
    as the empty text, not as [null]. *)
Lemma crime_report_body_is_the_draft :
  let o := ReportesDelito.handleSubmit (Resolved tt : Settled unit string)
             Escenarios.pagina_lista in
  let draft := ReportesDelito.formData Escenarios.pagina_lista in
  In (Request (ReportesDelito.Create draft)) (ReportesDelito.o_effects o) /\
  In ("avenida_id", JStr "2") (ReportesDelito.body_fields draft) /\
  is_number (JStr "2") = false /\
  In ("descripcion", JStr "") (ReportesDelito.body_fields draft) /\
  ~ Readings.bodies_are_normalised.
Proof.
  cbv zeta. repeat split.
  - cbn. auto.
  - cbn. auto.
  - cbn. auto 10.
  - intros [_ H].
    specialize (H string (Resolved tt) Escenarios.pagina_lista
                  (ReportesDelito.Create
                     (ReportesDelito.formData Escenarios.pagina_lista))
                  _ (or_introl eq_refl) eq_refl).
    destruct H as [_ H]. apply (H "descripcion" (JStr "")).
    + unfold Readings.optional_texts. simpl. auto.
    + cbn. auto 10.
    + reflexivity.
Qed.

Example incident_body :
  requests (snd (Siniestros.handleSubmit Escenarios.digitos
                   (Resolved tt) (Resolved None) Escenarios.siniestro_listo))
  = [Siniestros.Post
       (Siniestros.mkPayload (JStr "2025-03-01") JNull
          (JNum (Fin 2)) (JNum (Fin 4)) "media"
          (JNum (Fin 0)) (JNum (Fin 0)) (JNum (Fin 0)) JNull);
     Siniestros.GetSiniestros].
Proof. reflexivity. Qed.

(** ** What the forms check before they send *)

(** The text of an id is never the empty text, the value of the first
    option of a select of streets or of types. *)
Lemma string_of_Z_not_empty (z : Z) : string_of_Z z <> "".
Proof.
  unfold string_of_Z. destruct z as [ | p | p ]; cbn; [ discriminate | | ].
  - pose proof (Unsigned.to_uint_nonnil p) as N.
    destruct (Pos.to_uint p); [ contradiction | .. ]; discriminate.
  - discriminate.
Qed.

Lemma empty_text_matches_no_id (z : Z) : String.eqb "" (string_of_Z z) = false.
Proof.
  apply String.eqb_neq. intros E. exact (string_of_Z_not_empty z (eq_sym E)).
Qed.

Lemma num_igual_refl (z : Z) : num_igual (num_of_Z z) (num_of_Z z) = true.
Proof. cbn. apply Qeq_bool_iff. reflexivity. Qed.

(** What the select shows is an entry of the list. *)
Lemma shown_option_resolves (A : Type) (id_of : A -> Z) (l : list A)
    (v : JsVal) (a : A) :
  find (fun x => coincide v (id_of x)) l = Some a ->
  Readings.resolves (map id_of l) v.
Proof.
  intros F. apply find_some in F. destruct F as [Hin Hc].
  exists (id_of a). split; [ apply in_map; exact Hin | exact Hc ].
Qed.

(** A select of the incident form that shows an entry: the number that the
    payload carries for it is the id of an entry of the list, when the host
    reads the text of an id of the list back as that id. *)
Lemma shown_option_number_resolves
    (StringToNumber : string -> JsNumber)
    (refs : list Siniestros.Referencia) (v : JsVal) :
  (forall z, In z (map Siniestros.ref_id refs) ->
             StringToNumber (string_of_Z z) = num_of_Z z) ->
  Siniestros.muestra_vacia refs v = false ->
  Readings.resolves (map Siniestros.ref_id refs)
    (JNum (Number StringToNumber v)).
Proof.
  intros Host M. unfold Siniestros.muestra_vacia,
    Siniestros.referencia_mostrada in M.
  destruct (find _ refs) as [r|] eqn:F; [ | discriminate M ].
  apply find_some in F. destruct F as [Hin Hc].
  exists (Siniestros.ref_id r). split; [ apply in_map; exact Hin | ].
  destruct v as [ | s | n ]; cbn in Hc |- *.
  - discriminate Hc.
  - apply String.eqb_eq in Hc. subst s.
    rewrite Host by (apply in_map; exact Hin). apply num_igual_refl.
  - exact Hc.
Qed.

Lemma empty_selection_shows_nothing
    (A : Type) (id_of : A -> Z) (l : list A) (v : JsVal) :
  match v with
  | JNull => true
  | JStr s => string_is_empty s
  | JNum _ => false
  end = true ->
  find (fun x => coincide v (id_of x)) l = None.
Proof.
  intros E. induction l as [ | x l IH ]; [ reflexivity | ].
  cbn. rewrite IH.
  destruct v as [ | s | n ]; [ reflexivity | | discriminate E ].
  destruct s; [ | discriminate E ].
  cbn [coincide]. rewrite empty_text_matches_no_id. reflexivity.
Qed.

Ltac pick_key :=
  repeat match goal with
  | H : In _ (_ :: _) |- _ => simpl in H
  | H : _ \/ _ |- _ => destruct H as [H | H]
  | H : In _ [] |- _ => contradiction H
  | H : False |- _ => contradiction H
  | H : (_, _) = (_, _) |- _ => first [ discriminate H | injection H as <- ]
  end.

(** C5: what the two forms send points into the lists that are loaded.
    Whenever the crime-report form sends a creation or an update, the
    [avenida_id] of its body is the id of a street of the list of the page,
    as that number or as its text.  Whenever the incident form sends a
    [post] or a [put], the [avenida_id] and the [tipo_id] of its body are
    ids of the list of streets and of the list of types of the page, given
    that the host reads the text of an id of those lists back as that id.
    An empty selection of a street or of a type holds the form back: the
    message of a required control is shown and nothing is sent.  (The body
    of a crime report also carries [usuario_id], for which the page loads
    no list.) *)
Theorem submitted_references_resolve (StringToNumber : string -> JsNumber) :
  (forall (st : ReportesDelito.State) (c : ReportesDelito.Call)
          (body : list (string * JsVal)) (v : JsVal),
     In (Request c)
        (ReportesDelito.o_effects (ReportesDelito.form_onSubmit st)) ->
     ReportesDelito.body_of c = Some body ->
     In ("avenida_id", v) body ->
     Readings.resolves
       (map ReportesDelito.av_id (ReportesDelito.avenidas st)) v) /\
  (forall (res : Settled unit Siniestros.ApiError)
          (recarga : Settled (option (list Siniestros.Siniestro))
                             Siniestros.ApiError)
          (st : Siniestros.State) (c : Siniestros.Call)
          (body : list (string * JsVal)),
     (forall z,
        In z (map Siniestros.ref_id (Siniestros.avenidas st)
              ++ map Siniestros.ref_id (Siniestros.tiposSiniestro st)) ->
        StringToNumber (string_of_Z z) = num_of_Z z) ->
     In (Request c)
        (snd (Siniestros.form_onSubmit StringToNumber res recarga st)) ->
     Siniestros.body_of c = Some body ->
     (forall v, In ("avenida_id", v) body ->
        Readings.resolves
          (map Siniestros.ref_id (Siniestros.avenidas st)) v) /\
     (forall v, In ("tipo_id", v) body ->
        Readings.resolves
          (map Siniestros.ref_id (Siniestros.tiposSiniestro st)) v)) /\
  (forall st : ReportesDelito.State,
     ReportesDelito.control_vacio
       (ReportesDelito.fd_avenida_id (ReportesDelito.formData st)) = true ->
     exists campo,
       ReportesDelito.form_onSubmit st
       = ReportesDelito.mkOutcome st [ValidationMessage campo] []) /\
  (forall res recarga (st : Siniestros.State),
     Siniestros.control_vacio
       (Siniestros.f_avenida_id (Siniestros.form st)) = true \/
     Siniestros.control_vacio
       (Siniestros.f_tipo_id (Siniestros.form st)) = true ->
     exists campo,
       Siniestros.form_onSubmit StringToNumber res recarga st
       = (st, [ValidationMessage campo])).
Proof.
  split; [ | split; [ | split ] ].
  - intros st c body v Hin Hb Hv.
    unfold ReportesDelito.form_onSubmit,
      ReportesDelito.primer_requerido_vacio in Hin.
    destruct (string_is_empty _);
      [ cbn in Hin; destruct Hin as [E | []]; discriminate E | ].
    destruct (string_is_empty _);
      [ cbn in Hin; destruct Hin as [E | []]; discriminate E | ].
    destruct (ReportesDelito.avenida_mostrada st) as [a|] eqn:F;
      [ | cbn in Hin; destruct Hin as [E | []]; discriminate E ].
    assert (B : body = ReportesDelito.body_fields (ReportesDelito.formData st)).
    { unfold ReportesDelito.handleSubmit_start in Hin.
      destruct (ReportesDelito.editingReporte st); cbn in Hin;
        destruct Hin as [E | []]; injection E as <-; cbn in Hb; congruence. }
    subst body. unfold ReportesDelito.body_fields in Hv. pick_key.
    exact (shown_option_resolves ReportesDelito.av_id _ _ F).
  - intros res recarga st c body Host Hin Hb.
    unfold Siniestros.form_onSubmit, Siniestros.primer_requerido_vacio in Hin.
    destruct (string_is_empty _);
      [ cbn in Hin; destruct Hin as [E | []]; discriminate E | ].
    destruct (Siniestros.muestra_vacia (Siniestros.avenidas st) _) eqn:Ma;
      [ cbn in Hin; destruct Hin as [E | []]; discriminate E | ].
    destruct (Siniestros.muestra_vacia (Siniestros.tiposSiniestro st) _) eqn:Mt;
      [ cbn in Hin; destruct Hin as [E | []]; discriminate E | ].
    rewrite (siniestros_handleSubmit_request _ _ _ _ _ Hin Hb).
    unfold Siniestros.body_fields, Siniestros.payload_of. cbn.
    split; intros v Hv; pick_key.
    + apply shown_option_number_resolves; [ | exact Ma ].
      intros z Hz. apply Host. apply in_or_app. left. exact Hz.
    + apply shown_option_number_resolves; [ | exact Mt ].
      intros z Hz. apply Host. apply in_or_app. right. exact Hz.
  - intros st H. unfold ReportesDelito.form_onSubmit,
      ReportesDelito.primer_requerido_vacio, ReportesDelito.avenida_mostrada.
    rewrite (empty_selection_shows_nothing ReportesDelito.av_id _ _ H).
    destruct (string_is_empty _); [ eexists; reflexivity | ].
    destruct (string_is_empty _); eexists; reflexivity.
  - intros res recarga st H. unfold Siniestros.form_onSubmit,
      Siniestros.primer_requerido_vacio, Siniestros.muestra_vacia,
      Siniestros.referencia_mostrada.
    destruct (string_is_empty _); [ eexists; reflexivity | ].
    destruct H as [H | H].
    + rewrite (empty_selection_shows_nothing Siniestros.ref_id _ _ H).
      eexists; reflexivity.
    + rewrite (empty_selection_shows_nothing Siniestros.ref_id
                 (Siniestros.tiposSiniestro st) _ H).
      destruct (find _ (Siniestros.avenidas st)); eexists; reflexivity.
Qed.

Lemma submitted_references_resolve_witness :
  let st := Escenarios.siniestro_listo in
  let sent :=
    Siniestros.Post
      (Siniestros.mkPayload (JStr "2025-03-01") JNull
         (JNum (Fin 2)) (JNum (Fin 4)) "media"
         (JNum (Fin 0)) (JNum (Fin 0)) (JNum (Fin 0)) JNull) in
  Siniestros.avenidas st = [Siniestros.mkReferencia 2 "Ruta 38"] /\
  Siniestros.tiposSiniestro st = [Siniestros.mkReferencia 4 "Colisión"] /\
  (forall z, In z [2%Z; 4%Z] ->
             Escenarios.digitos (string_of_Z z) = num_of_Z z) /\
  In (Request sent)
     (snd (Siniestros.form_onSubmit Escenarios.digitos
             (Resolved tt) (Resolved None) st)) /\
  Readings.resolves [2%Z] (JNum (Fin 2)) /\
  Readings.resolves [4%Z] (JNum (Fin 4)).
Proof.
  cbv zeta.
  assert (Host : forall z, In z [2%Z; 4%Z] ->
                   Escenarios.digitos (string_of_Z z) = num_of_Z z).
  { intros z [E | [E | []]]; subst z; reflexivity. }
  split; [ reflexivity | ]. split; [ reflexivity | ].
  split; [ exact Host | ].
  split; [ cbn; auto | ].
  pose proof (proj1 (proj2 (submitted_references_resolve Escenarios.digitos))
                (Resolved tt) (Resolved None) Escenarios.siniestro_listo
                (Siniestros.Post
                   (Siniestros.mkPayload (JStr "2025-03-01") JNull
                      (JNum (Fin 2)) (JNum (Fin 4)) "media"
                      (JNum (Fin 0)) (JNum (Fin 0)) (JNum (Fin 0)) JNull))
                _ Host (or_intror (or_introl eq_refl)) eq_refl) as [Ha Ht].
  split.
  - apply (Ha (JNum (Fin 2))). cbn. auto.
  - apply (Ht (JNum (Fin 4))). cbn. auto.
Defined.

(** A report whose street is not in the list of the page, opened with
    "Editar": the select of the street shows its empty option and the form
    is held back. *)
Example street_out_of_the_list_is_held_back :
  let st := ReportesDelito.handleEdit Escenarios.un_hurto
              Escenarios.pagina_lista in
  ReportesDelito.avenidas st = [Escenarios.ruta_38] /\
  ReportesDelito.fd_avenida_id (ReportesDelito.formData st)
  = JNum (num_of_Z 3) /\
  ReportesDelito.o_effects (ReportesDelito.form_onSubmit st)
  = [ValidationMessage "avenida_id"].
Proof. cbv zeta. repeat split. Qed.

(** ** What happens to a failure *)

(** C7: a submission that fails leaves the draft as it was.  On the
    crime-report page the whole state is untouched (the draft, the modal
    that stays as it is, the report being edited), also when the failure
    arrives after the user has gone on typing, and the user gets the alert;
    on the incident page the draft, the lists and the loading flag are
    untouched, the error text is set and the user gets the alert. *)
Theorem failed_submit_keeps_the_draft
    (StringToNumber : string -> JsNumber) (Err : Type) (e : Err)
    (err : Siniestros.ApiError)
    (recarga : Settled (option (list Siniestros.Siniestro)) Siniestros.ApiError) :
  (forall st,
     let o := ReportesDelito.handleSubmit (Rejected e) st in
     ReportesDelito.o_state o = st /\
     alerts (ReportesDelito.o_effects o) = ["Error al guardar el reporte"] /\
     ReportesDelito.o_awaited o = []) /\
  (forall filtros_seen st,
     ReportesDelito.o_state
       (ReportesDelito.handleSubmit_settle filtros_seen (Rejected e) st) = st) /\
  (forall st,
     let out := Siniestros.handleSubmit StringToNumber (Rejected err) recarga st in
     Siniestros.form (fst out) = Siniestros.form st /\
     Siniestros.siniestros (fst out) = Siniestros.siniestros st /\
     Siniestros.avenidas (fst out) = Siniestros.avenidas st /\
     Siniestros.tiposSiniestro (fst out) = Siniestros.tiposSiniestro st /\
     Siniestros.loading (fst out) = Siniestros.loading st /\
     Siniestros.error (fst out)
     = Some (Siniestros.Mensaje
               (or_else_str (Siniestros.detail_o_message err)
                            "Error al guardar")) /\
     alerts (snd out) = [("Error: " ++ Siniestros.detail_o_message err)%string]).
Proof. repeat split. Qed.

Example incident_draft_after_failure :
  let out := Siniestros.handleSubmit Escenarios.digitos
               (Rejected Escenarios.sin_conexion) (Resolved None)
               Escenarios.siniestro_listo in
  Siniestros.form (fst out) = Siniestros.form Escenarios.siniestro_listo /\
  Siniestros.error_visible (fst out) = Some "Network Error" /\
  alerts (snd out) = ["Error: Network Error"].
Proof. cbv zeta. repeat split. Qed.

Example crime_report_draft_after_failure :
  let st := Escenarios.pagina_lista in
  let o := ReportesDelito.handleSubmit (Rejected "Network Error") st in
  ReportesDelito.formData (ReportesDelito.o_state o)
  = ReportesDelito.mkFormData "2025-03-01" "22:15" (JStr "2") "robo" "media"
      "" 1 /\
  ReportesDelito.showModal (ReportesDelito.o_state o) = true.
Proof. cbv zeta. split; reflexivity. Qed.

(** C6 (as the code has it): every call is awaited inside a [try], so every
    failure ends in a [catch] of the page.  A failed load, submission,
    removal or comparison reaches the user, as the error of the page (the
    banner, the error box) or as an alert.  A failed read of the reference list of the crime-report page
    and a failed read of the tops of the ranking page do not: the state is
    left as it was and the failure is written to the console. *)
Theorem failures_are_caught
    (StringToNumber parseInt : string -> JsNumber)
    (Comparacion Err : Type) (e : Err) (err : Siniestros.ApiError) :
  (* the crime-report page *)
  (forall st,
     ReportesDelito.error
       (ReportesDelito.o_state (ReportesDelito.cargarDatos (Rejected e) st))
     = Some "Error al cargar los reportes delictivos") /\
  (forall st,
     alerts (ReportesDelito.o_effects
               (ReportesDelito.handleSubmit (Rejected e) st))
     = ["Error al guardar el reporte"]) /\
  (forall st id,
     alerts (ReportesDelito.o_effects
               (ReportesDelito.handleDelete id true (Rejected e) st))
     = ["Error al eliminar el reporte"]) /\
  (forall st,
     ReportesDelito.cargarAvenidas (Rejected e) st
     = ReportesDelito.mkOutcome st
         [Request ReportesDelito.GetAvenidas;
          ConsoleError "Error al cargar avenidas:"] []) /\
  (* the ranking page *)
  (forall st : IndiceSeguridad.State Comparacion,
     IndiceSeguridad.error (fst (IndiceSeguridad.cargarDatos (Rejected e) st))
     = Some IndiceSeguridad.error_de_carga) /\
  (forall (st : IndiceSeguridad.State Comparacion) seguras peligrosas,
     is_rejected seguras || is_rejected peligrosas = true ->
     IndiceSeguridad.cargarTops (Err := Err) seguras peligrosas st
     = (st, [Request (IndiceSeguridad.GetTopAvenidasSeguras 5);
             Request (IndiceSeguridad.GetTopAvenidasPeligrosas 5);
             ConsoleError "Error al cargar tops:"])) /\
  (forall st : IndiceSeguridad.State Comparacion,
     requests (snd (IndiceSeguridad.compararAvenidas parseInt (Rejected e) st))
     <> [] ->
     alerts (snd (IndiceSeguridad.compararAvenidas parseInt (Rejected e) st))
     = ["Error al comparar las avenidas"]) /\
  (* the incident page *)
  (forall st s a t,
     is_rejected s || is_rejected a || is_rejected t = true ->
     Siniestros.error_visible (fst (Siniestros.cargarDatosIniciales s a t st))
     <> None) /\
  (forall st,
     Siniestros.error_visible
       (fst (Siniestros.fetchSiniestros (Rejected err) st)) <> None) /\
  (forall st recarga,
     alerts (snd (Siniestros.handleSubmit StringToNumber (Rejected err)
                    recarga st))
     = [("Error: " ++ Siniestros.detail_o_message err)%string]) /\
  (forall st id recarga,
     alerts (snd (Siniestros.handleDelete id true (Rejected err) recarga st))
     = ["Error al eliminar el siniestro"]) /\
  (* the dashboard *)
  (forall (Estadisticas Avenida : Type)
          (stats : Settled Estadisticas Err)
          (p g t : Settled (RutaSegura.AvenidasBody Avenida) Err) st,
     RutaSegura.some_read_rejected stats p g t = true ->
     RutaSegura.render (fst (RutaSegura.cargarDatos stats p g t st))
     = RutaSegura.ErrorBox
         "Error al cargar los datos. Por favor, intenta nuevamente.").
Proof.
  repeat split.
  - intros st seguras peligrosas H. apply cargarTops_rejects. exact H.
  - intros st. unfold IndiceSeguridad.compararAvenidas.
    destruct (string_is_empty _ || string_is_empty _);
      [ cbn; congruence | ].
    destruct (String.eqb _ _); [ cbn; congruence | reflexivity ].
  - intros st s a t H.
    destruct s, a, t; cbn in H; try discriminate H; cbn; congruence.
  - intros st. cbn. congruence.
  - intros Estadisticas Avenida stats p g t st H.
    destruct (promise_all_rejects stats p g t H) as [e' He].
    unfold RutaSegura.cargarDatos. rewrite He. reflexivity.
Qed.

(** C6 (as the spec has it) fails: when the read of the reference list
    fails on the crime-report page, the page is left exactly as it was, with
    no error set and no alert: the failure is only written to the console.
    The same happens on the ranking page when a read of the tops fails. *)
Lemma reference_list_failure_is_silent :
  let o := ReportesDelito.cargarAvenidas (Rejected "Network Error")
             ReportesDelito.initial in
  let out := IndiceSeguridad.cargarTops
               (Rejected "Network Error" : Settled IndiceSeguridad.Body string)
               (Resolved (IndiceSeguridad.Bare IndiceSeguridad.datos_de_ejemplo))
               (IndiceSeguridad.initial (Comparacion := string)) in
  ReportesDelito.o_state o = ReportesDelito.initial /\
  ReportesDelito.o_effects o
  = [Request ReportesDelito.GetAvenidas;
     ConsoleError "Error al cargar avenidas:"] /\
  alerts (ReportesDelito.o_effects o) = [] /\
  ReportesDelito.error (ReportesDelito.o_state o) = None /\
  fst out = IndiceSeguridad.initial /\
  alerts (snd out) = [] /\
  IndiceSeguridad.error (fst out) = None /\
  ~ Readings.failures_are_shown.
Proof.
  cbv zeta. repeat split.
  intros [H _].
  specialize (H string "Network Error" ReportesDelito.initial).
  cbv zeta in H. destruct H as (_ & [H | H] & _); apply H; reflexivity.
Qed.

(** * More of what the code does *)

(** ** The dashboard *)

(** X1: the colour and the mark of a classification always agree: two
    classifications get the same mark exactly when they get the same colour,
    so a classification that the page does not know gets the grey colour
    and the white mark together. *)
Theorem emoji_agrees_with_colour (c1 c2 : string) :
  RutaSeguraVista.obtenerEmoji c1 = RutaSeguraVista.obtenerEmoji c2 <->
  RutaSeguraVista.obtenerColorRiesgo c1 = RutaSeguraVista.obtenerColorRiesgo c2.
Proof.
  unfold RutaSeguraVista.obtenerEmoji, RutaSeguraVista.obtenerColorRiesgo.
  repeat match goal with
  | |- context [String.eqb ?a ?b] => destruct (String.eqb a b)
  end; split; intros H; try reflexivity; discriminate H.
Qed.

(** X2: when [cargarDatos] of the dashboard has run, whatever the state
    was before, the spinner is gone; the error box is what is rendered
    exactly when one of the four reads failed, and when the four resolved
    the page is rendered with the four bodies of this load. *)
Theorem dashboard_after_load
    (Estadisticas Avenida Err : Type)
    (stats : Settled Estadisticas Err)
    (p g t : Settled (RutaSegura.AvenidasBody Avenida) Err)
    (st : RutaSegura.State Estadisticas Avenida) :
  let v := RutaSegura.render (fst (RutaSegura.cargarDatos stats p g t st)) in
  v <> RutaSegura.Spinner /\
  (RutaSegura.some_read_rejected stats p g t = true <->
   v = RutaSegura.ErrorBox
         "Error al cargar los datos. Por favor, intenta nuevamente.") /\
  (forall s p' g' t',
     stats = Resolved s -> p = Resolved p' -> g = Resolved g' ->
     t = Resolved t' ->
     v = RutaSegura.Page (Some s) (RutaSegura.avenidas p')
           (RutaSegura.avenidas g') (RutaSegura.avenidas t')).
Proof.
  cbv zeta. destruct stats, p, g, t; cbn;
    (split; [ discriminate | split; [ split; intros H; try reflexivity;
                                       discriminate H | ] ]);
    intros s p' g' t' E1 E2 E3 E4; try discriminate;
    congruence.
Qed.

(** ** The service layer *)

Lemma append_assoc (a b c : string) :
  ((a ++ b) ++ c = a ++ (b ++ c))%string.
Proof. induction a as [|x a IH]; cbn; [ reflexivity | now rewrite IH ]. Qed.

Lemma append_nil_r (a : string) : (a ++ "")%string = a.
Proof. induction a as [|x a IH]; cbn; [ reflexivity | now rewrite IH ]. Qed.

(** X3: for either service, [count] and [getAll] send the same filters in
    the same order: what [getAll] puts after its page of results is either
    nothing, and then [count] asks the bare address, or [&] followed by a
    query, and then [count] asks for [?] followed by the same query. *)
Theorem count_and_getAll_send_the_same_filters
    (ruta clave1 clave2 clave3 : string) (params : ApiService.Params) :
  exists q : string,
    ApiService.getAll_url ruta clave1 clave2 clave3 params
    = (ruta ++ "?skip="
            ++ string_of_Z (ApiService.por_defecto 0 (ApiService.skip params))
            ++ "&limit="
            ++ string_of_Z (ApiService.por_defecto 100 (ApiService.limit params))
            ++ q)%string /\
    ((q = "" /\
      ApiService.count_url ruta clave1 clave2 clave3 params
      = (ruta ++ "/count")%string) \/
     (exists q' : string,
        q = ("&" ++ q')%string /\
        ApiService.count_url ruta clave1 clave2 clave3 params
        = (ruta ++ "/count?" ++ q')%string)).
Proof.
  exists ((if ApiService.presente (ApiService.filtro1 params)
           then "&" ++ clave1 ++ "=" ++ ApiService.texto (ApiService.filtro1 params)
           else "")
          ++ (if ApiService.presente (ApiService.filtro2 params)
              then "&" ++ clave2 ++ "=" ++ ApiService.texto (ApiService.filtro2 params)
              else "")
          ++ (if ApiService.presente (ApiService.filtro3 params)
              then "&" ++ clave3 ++ "=" ++ ApiService.texto (ApiService.filtro3 params)
              else ""))%string.
  unfold ApiService.getAll_url, ApiService.count_url, ApiService.queryParams.
  destruct (ApiService.presente (ApiService.filtro1 params));
    destruct (ApiService.presente (ApiService.filtro2 params));
    destruct (ApiService.presente (ApiService.filtro3 params));
    cbn [app length Nat.ltb Nat.leb String.concat];
    (split;
      [ repeat rewrite append_assoc; cbn [append];
        repeat rewrite append_nil_r; reflexivity | ]);
    first [ left; split; reflexivity
          | right; eexists; split;
            [ cbn [append]; reflexivity
            | repeat rewrite append_assoc; cbn [append];
              repeat rewrite append_nil_r; reflexivity ] ].
Qed.

Lemma non_empty_presente (s : string) :
  ApiService.presente (ReportesDelito.non_empty s) = negb (string_is_empty s).
Proof. destruct s; reflexivity. Qed.

(** X4: the crime-report page always reads the first hundred reports: the
    address of its list read starts with [skip=0&limit=100] whatever the
    filters, and it is that address and nothing more exactly when the three
    filters are on their empty option. *)
Theorem list_read_asks_the_first_hundred (f : ReportesDelito.Filtros) :
  (exists q : string,
     ApiService.url_de_carga f
     = ("/reportes-delito?skip=0&limit=100" ++ q)%string) /\
  (ApiService.url_de_carga f = "/reportes-delito?skip=0&limit=100" <->
   ReportesDelito.f_avenida_id f = "" /\
   ReportesDelito.f_tipo_delito f = "" /\
   ReportesDelito.f_nivel_peligrosidad f = "").
Proof.
  destruct f as [t n a].
  unfold ApiService.url_de_carga, ApiService.reportesDelito_getAll_url,
    ApiService.getAll_url, ApiService.de_cargarDatos,
    ReportesDelito.params_of.
  cbn [ApiService.filtro1 ApiService.filtro2 ApiService.filtro3
       ApiService.skip ApiService.limit ApiService.por_defecto
       ReportesDelito.p_avenida_id ReportesDelito.p_tipo_delito
       ReportesDelito.p_nivel_peligrosidad ReportesDelito.f_avenida_id
       ReportesDelito.f_tipo_delito ReportesDelito.f_nivel_peligrosidad].
  rewrite !non_empty_presente.
  change (string_of_Z 0) with "0". change (string_of_Z 100) with "100".
  destruct a as [|ca a]; destruct t as [|ct t]; destruct n as [|cn n];
    cbn; (split; [ eexists; reflexivity | ]); split; intros H;
    try (repeat split; reflexivity);
    try discriminate H;
    try (destruct H as (Ha & Ht & Hn); discriminate).
Qed.

(** ** The ranking page *)

(** X5: the limit travels to the backend only when it counts.  After the
    "Mostrar" select has changed, the index read that follows carries the
    sort key of the page, and it carries a limit exactly when the option was
    not the empty one and [parseInt] of it is neither zero nor [NaN]; the
    limit is then that number. *)
Theorem limit_is_sent_only_when_truthy
    (Comparacion : Type) (parseInt : string -> JsNumber) (value : string)
    (st : IndiceSeguridad.State Comparacion) :
  let st' := IndiceSeguridad.onChangeLimite parseInt value st in
  exists lim,
    requests (snd (IndiceSeguridad.cargarDatos_start st'))
    = [IndiceSeguridad.GetIndiceSeguridad (IndiceSeguridad.ordenamiento st) lim]
    /\
    match lim with
    | Some n => value <> "" /\ n = parseInt value /\ truthy_num n = true
    | None => value = "" \/ truthy_num (parseInt value) = false
    end.
Proof.
  cbv zeta. unfold IndiceSeguridad.cargarDatos_start,
    IndiceSeguridad.params_limite, IndiceSeguridad.onChangeLimite.
  destruct value as [|c value]; cbn.
  - exists None. split; [ reflexivity | left; reflexivity ].
  - destruct (truthy_num (parseInt (String c value))) eqn:E.
    + exists (Some (parseInt (String c value))).
      repeat split; [ discriminate | exact E ].
    + exists None. split; [ reflexivity | right; reflexivity ].
Qed.

(** X6: a comparison changes the page only when it succeeds.  When the
    selection is refused or the read fails, the whole state stays as it
    was, the result of an earlier comparison included; when the read
    resolves for two different streets, the result is replaced and nothing
    else changes. *)
Theorem comparison_changes_only_the_result
    (Comparacion Err : Type) (parseInt : string -> JsNumber)
    (res : Settled Comparacion Err) (st : IndiceSeguridad.State Comparacion) :
  let a := IndiceSeguridad.avenida1 st in
  let b := IndiceSeguridad.avenida2 st in
  let st' := fst (IndiceSeguridad.compararAvenidas parseInt res st) in
  (is_rejected res = true \/ a = "" \/ b = "" \/ a = b -> st' = st) /\
  (forall resultado,
     res = Resolved resultado -> a <> "" -> b <> "" -> a <> b ->
     st' = IndiceSeguridad.setResultadoComparacion (Some resultado) st).
Proof.
  cbv zeta. unfold IndiceSeguridad.compararAvenidas.
  destruct (string_is_empty (IndiceSeguridad.avenida1 st)) eqn:E1;
    [ apply string_is_empty_iff in E1
    | destruct (string_is_empty (IndiceSeguridad.avenida2 st)) eqn:E2;
      [ apply string_is_empty_iff in E2
      | destruct (String.eqb_spec (IndiceSeguridad.avenida1 st)
                                  (IndiceSeguridad.avenida2 st)) as [E3|E3] ] ];
    cbn [orb fst]; split; try reflexivity; try (intros; congruence).
  - intros [H | [H | [H | H]]].
    + destruct res; [ discriminate H | reflexivity ].
    + apply string_is_empty_iff in H. congruence.
    + apply string_is_empty_iff in H. congruence.
    + contradiction.
  - intros resultado -> _ _ _. reflexivity.
Qed.

(** X7: on the ranking page the two loads do not touch each other's data.
    Whatever the index read does, [cargarDatos] leaves the two tops, the
    selection and the result of the comparison, the sort key and the limit
    as they were; whatever the reads of the tops do, [cargarTops] leaves the
    list, the loading flag and the error as they were. *)
Theorem the_two_loads_are_separate
    (Comparacion Err : Type)
    (res seguras peligrosas : Settled IndiceSeguridad.Body Err)
    (st : IndiceSeguridad.State Comparacion) :
  let d := fst (IndiceSeguridad.cargarDatos res st) in
  let t := fst (IndiceSeguridad.cargarTops seguras peligrosas st) in
  (IndiceSeguridad.topSeguras d = IndiceSeguridad.topSeguras st /\
   IndiceSeguridad.topPeligrosas d = IndiceSeguridad.topPeligrosas st /\
   IndiceSeguridad.avenida1 d = IndiceSeguridad.avenida1 st /\
   IndiceSeguridad.avenida2 d = IndiceSeguridad.avenida2 st /\
   IndiceSeguridad.resultadoComparacion d
   = IndiceSeguridad.resultadoComparacion st /\
   IndiceSeguridad.ordenamiento d = IndiceSeguridad.ordenamiento st /\
   IndiceSeguridad.limite d = IndiceSeguridad.limite st) /\
  (IndiceSeguridad.avenidas t = IndiceSeguridad.avenidas st /\
   IndiceSeguridad.loading t = IndiceSeguridad.loading st /\
   IndiceSeguridad.error t = IndiceSeguridad.error st /\
   IndiceSeguridad.resultadoComparacion t
   = IndiceSeguridad.resultadoComparacion st).
Proof.
  cbv zeta. split.
  - destruct res; repeat split.
  - destruct seguras, peligrosas; repeat split.
Qed.

(** ** The crime-report page *)

(** X8: the reports that are on screen stay on screen while the list is
    read again, and after that read has failed.  With a list that is not
    empty, the page during the reload shows the same rows with no banner,
    and after the failure the same rows under the banner; the modal is as it
    was.  The spinner replaces the page only while the list is empty. *)
Theorem rows_stay_during_a_reload
    (Err : Type) (e : Err) (filtros_seen : ReportesDelito.Filtros)
    (st : ReportesDelito.State) :
  let reloading :=
    ReportesDelito.o_state (ReportesDelito.cargarDatos_start filtros_seen st) in
  let failed :=
    ReportesDelito.o_state
      (ReportesDelito.cargarDatos_settle (Rejected e) reloading) in
  (ReportesDelito.reportes st <> [] ->
   ReportesDelitoVista.render reloading
   = ReportesDelitoVista.Pagina None (ReportesDelito.reportes st) false
       (ReportesDelitoVista.modal_de st) /\
   ReportesDelitoVista.render failed
   = ReportesDelitoVista.Pagina
       (Some "Error al cargar los reportes delictivos")
       (ReportesDelito.reportes st) false (ReportesDelitoVista.modal_de st)) /\
  (ReportesDelito.reportes st = [] ->
   ReportesDelitoVista.render reloading = ReportesDelitoVista.Cargando /\
   ReportesDelitoVista.render failed
   = ReportesDelitoVista.Pagina
       (Some "Error al cargar los reportes delictivos")
       [] true (ReportesDelitoVista.modal_de st)).
Proof.
  cbv zeta. unfold ReportesDelitoVista.render, ReportesDelitoVista.lista_vacia,
    ReportesDelitoVista.banner_de, ReportesDelitoVista.modal_de. cbn.
  split; intros H.
  - destruct (ReportesDelito.reportes st); [ contradiction | ].
    cbn. split; reflexivity.
  - rewrite H. cbn. split; reflexivity.
Qed.

Lemma rows_stay_during_a_reload_witness :
  let st := ReportesDelito.view
              (ReportesDelito.run Escenarios.carrera) in
  let reloading :=
    ReportesDelito.o_state
      (ReportesDelito.cargarDatos_start (ReportesDelito.filtros st) st) in
  ReportesDelito.reportes st <> [] /\
  ReportesDelitoVista.render reloading
  = ReportesDelitoVista.Pagina None [Escenarios.un_robo] false None.
Proof.
  cbv zeta.
  assert (N : ReportesDelito.reportes
                (ReportesDelito.view (ReportesDelito.run Escenarios.carrera))
              <> []) by (cbn; discriminate).
  split; [ exact N | ].
  exact (proj1 (proj1 (@rows_stay_during_a_reload string "Network Error"
                         (ReportesDelito.filtros
                            (ReportesDelito.view
                               (ReportesDelito.run Escenarios.carrera)))
                         (ReportesDelito.view
                            (ReportesDelito.run Escenarios.carrera))) N)).
Defined.

(** X9: the modal says what the submission will do.  When the modal is
    shown, either its title is "Editar Reporte", its button "Actualizar
    Reporte", and [handleSubmit] sends the update of the report being edited
    with the draft on screen as its body; or its title is "Nuevo Reporte
    Delictivo", its button "Crear Reporte", and [handleSubmit] sends the
    creation of that draft. *)
Theorem modal_says_what_is_sent
    (st : ReportesDelito.State) (m : ReportesDelitoVista.Modal) :
  ReportesDelitoVista.modal_de st = Some m ->
  (ReportesDelitoVista.m_titulo m = "Editar Reporte" /\
   ReportesDelitoVista.m_boton m = "Actualizar Reporte" /\
   exists r,
     ReportesDelito.editingReporte st = Some r /\
     requests (ReportesDelito.o_effects (ReportesDelito.handleSubmit_start st))
     = [ReportesDelito.Update (ReportesDelito.id r)
          (ReportesDelitoVista.m_borrador m)]) \/
  (ReportesDelitoVista.m_titulo m = "Nuevo Reporte Delictivo" /\
   ReportesDelitoVista.m_boton m = "Crear Reporte" /\
   ReportesDelito.editingReporte st = None /\
   requests (ReportesDelito.o_effects (ReportesDelito.handleSubmit_start st))
   = [ReportesDelito.Create (ReportesDelitoVista.m_borrador m)]).
Proof.
  unfold ReportesDelitoVista.modal_de, ReportesDelito.handleSubmit_start.
  destruct (ReportesDelito.showModal st); [ | discriminate ].
  intros H. injection H as <-.
  destruct (ReportesDelito.editingReporte st) as [r|]; cbn.
  - left. repeat split. exists r. split; reflexivity.
  - right. repeat split.
Qed.

Lemma modal_says_what_is_sent_witness :
  let st := ReportesDelito.view
              (ReportesDelito.run Escenarios.edicion_lista) in
  let m := ReportesDelitoVista.mkModal "Editar Reporte" "Actualizar Reporte"
             (ReportesDelito.formData st) in
  ReportesDelitoVista.modal_de st = Some m /\
  ((ReportesDelitoVista.m_titulo m = "Editar Reporte" /\
    ReportesDelitoVista.m_boton m = "Actualizar Reporte" /\
    exists r,
      ReportesDelito.editingReporte st = Some r /\
      requests (ReportesDelito.o_effects (ReportesDelito.handleSubmit_start st))
      = [ReportesDelito.Update (ReportesDelito.id r)
           (ReportesDelitoVista.m_borrador m)]) \/
   (ReportesDelitoVista.m_titulo m = "Nuevo Reporte Delictivo" /\
    ReportesDelitoVista.m_boton m = "Crear Reporte" /\
    ReportesDelito.editingReporte st = None /\
    requests (ReportesDelito.o_effects (ReportesDelito.handleSubmit_start st))
    = [ReportesDelito.Create (ReportesDelitoVista.m_borrador m)])).
Proof.
  cbv zeta. split; [ reflexivity | ].
  apply (modal_says_what_is_sent
           (ReportesDelito.view
              (ReportesDelito.run Escenarios.edicion_lista))).
  reflexivity.
Defined.

(** X10: opening a report with "Editar" and saving it as it is sends the
    report back under its own id: its date, time, street (as a number),
    type, level and user.  The description goes back as it is when there is
    one, and as the empty text when the report had none. *)
Theorem edit_then_save_sends_the_report_back
    (r : ReportesDelito.Reporte) (st : ReportesDelito.State) :
  exists body,
    requests (ReportesDelito.o_effects
                (ReportesDelito.handleSubmit_start
                   (ReportesDelito.handleEdit r st)))
    = [ReportesDelito.Update (ReportesDelito.id r) body] /\
    ReportesDelito.fd_fecha body = ReportesDelito.fecha r /\
    ReportesDelito.fd_hora body = ReportesDelito.hora r /\
    ReportesDelito.fd_avenida_id body
    = JNum (num_of_Z (ReportesDelito.avenida_id r)) /\
    ReportesDelito.fd_tipo_delito body = ReportesDelito.tipo_delito r /\
    ReportesDelito.fd_nivel_peligrosidad body
    = ReportesDelito.nivel_peligrosidad r /\
    ReportesDelito.fd_usuario_id body = ReportesDelito.usuario_id r /\
    match ReportesDelito.descripcion r with
    | Some d => ReportesDelito.fd_descripcion body = d
    | None => ReportesDelito.fd_descripcion body = ""
    end.
Proof.
  eexists. split; [ reflexivity | ]. cbn. repeat split.
  destruct (ReportesDelito.descripcion r) as [d|]; [ | reflexivity ].
  cbn. unfold or_else_str. destruct d; reflexivity.
Qed.

Lemma reads_of_avenidas_step
    (Err : Type) (ev : ReportesDelito.Event Err) (p : ReportesDelito.Page) :
  length (filter ReportesDelitoVista.es_GetAvenidas
            (ReportesDelito.history (ReportesDelito.step ev p)))
  = (length (filter ReportesDelitoVista.es_GetAvenidas
               (ReportesDelito.history p))
     + if ReportesDelitoVista.cambia_filtro ev then 1 else 0)%nat.
Proof.
  destruct p as [st aw hist].
  destruct ev as [c v | c v | | r | | | i confirmed | i resp]; cbn.
  - destruct (ReportesDelito.es_filtro c); cbn;
      [ rewrite filter_app, length_app; reflexivity
      | rewrite Nat.add_0_r; reflexivity ].
  - rewrite app_nil_r, Nat.add_0_r; reflexivity.
  - rewrite app_nil_r, Nat.add_0_r; reflexivity.
  - rewrite app_nil_r, Nat.add_0_r; reflexivity.
  - rewrite app_nil_r, Nat.add_0_r; reflexivity.
  - unfold ReportesDelito.form_onSubmit.
    destruct (ReportesDelito.primer_requerido_vacio _); cbn;
      [ | destruct (ReportesDelito.editingReporte st) ];
      rewrite filter_app, length_app; reflexivity.
  - destruct confirmed; cbn; rewrite filter_app, length_app; reflexivity.
  - destruct (nth_error aw i) as [a|];
      [ | cbn; rewrite Nat.add_0_r; reflexivity ].
    destruct (ReportesDelito.aw_then a) as [ | | f | f ];
      destruct resp as [[x|e] | [x|e] | [x|e]]; cbn;
      rewrite ?filter_app, ?length_app, ?app_nil_r; cbn;
      rewrite ?Nat.add_0_r; reflexivity.
Qed.

(** X11: the reference list of streets is read again at every change of a
    filter, and at no other moment: in everything the page has done after
    any sequence of events, the reads of the streets are one (the mount)
    more than the changes of filter. *)
Theorem streets_are_read_again_at_every_filter_change
    (Err : Type) (events : list (ReportesDelito.Event Err)) :
  length (filter ReportesDelitoVista.es_GetAvenidas
            (ReportesDelito.history (ReportesDelito.run events)))
  = S (length (filter ReportesDelitoVista.cambia_filtro events)).
Proof.
  induction events as [|ev events IH] using rev_ind.
  - reflexivity.
  - rewrite run_snoc, reads_of_avenidas_step, IH.
    rewrite filter_app, length_app. cbn.
    destruct (ReportesDelitoVista.cambia_filtro ev); cbn; lia.
Qed.

(** ** The incident page *)

Lemma antes_de_T_sin_T (s : string) :
  Siniestros.incluye_T (Siniestros.antes_de_T s) = false.
Proof.
  induction s as [|c s IH]; cbn; [ reflexivity | ].
  destruct (Ascii.eqb c "T") eqn:E; cbn; [ reflexivity | ].
  rewrite E. exact IH.
Qed.

Lemma antes_de_T_prefix (s : string) :
  exists rest : string, s = (Siniestros.antes_de_T s ++ rest)%string.
Proof.
  induction s as [|c s [rest IH]]; cbn.
  - exists "". reflexivity.
  - destruct (Ascii.eqb c "T").
    + exists (String c s). reflexivity.
    + exists rest. cbn. congruence.
Qed.

(** X12: the date that [handleEdit] puts in the draft is the day of the
    record's date: it has no ['T'] in it, the record's date starts with it,
    and it is the record's date itself when that has no ['T'] (and the
    empty text when the record has no date). *)
Theorem handleEdit_keeps_the_day
    (s : Siniestros.Siniestro) (st : Siniestros.State) :
  let original :=
    match Siniestros.fecha s with Some d => d | None => "" end in
  let dia := Siniestros.f_fecha (Siniestros.form (fst (Siniestros.handleEdit s st))) in
  Siniestros.incluye_T dia = false /\
  (exists rest : string, original = (dia ++ rest)%string) /\
  (Siniestros.incluye_T original = false -> dia = original).
Proof.
  cbv zeta. cbn. destruct (Siniestros.fecha s) as [d|].
  - destruct d as [|c d]; [ repeat split; exists ""; reflexivity | ].
    cbn [string_is_empty].
    destruct (Siniestros.incluye_T (String c d)) eqn:E.
    + split; [ apply antes_de_T_sin_T | ].
      split; [ apply antes_de_T_prefix | discriminate ].
    + split; [ exact E | ].
      split; [ exists ""; symmetry; apply append_nil_r | reflexivity ].
  - repeat split. exists "". reflexivity.
Qed.

(** X13: the heading of the form says what the submission will do.  Either
    the heading is "Editar Siniestro", the button "Actualizar", and the
    first request of [handleSubmit] is the [put] of the draft's id, which is
    not zero; or the heading is "Crear Nuevo Siniestro", the button "Crear",
    and the first request is a [post]: that is the case when the draft has
    no id, and also when its id is zero. *)
Theorem heading_says_what_is_sent
    (StringToNumber : string -> JsNumber)
    (res : Settled unit Siniestros.ApiError)
    (recarga : Settled (option (list Siniestros.Siniestro)) Siniestros.ApiError)
    (st : Siniestros.State) :
  let f := Siniestros.form st in
  let sent := requests (snd (Siniestros.handleSubmit StringToNumber res recarga st)) in
  (SiniestrosVista.titulo f = "Editar Siniestro" /\
   SiniestrosVista.boton f = "Actualizar" /\
   exists i, Siniestros.f_id f = Some i /\ i <> 0%Z /\
     hd_error sent
     = Some (Siniestros.Put i (Siniestros.payload_of StringToNumber f))) \/
  (SiniestrosVista.titulo f = "Crear Nuevo Siniestro" /\
   SiniestrosVista.boton f = "Crear" /\
   (Siniestros.f_id f = None \/ Siniestros.f_id f = Some 0%Z) /\
   hd_error sent
   = Some (Siniestros.Post (Siniestros.payload_of StringToNumber f))).
Proof.
  cbv zeta.
  assert (H : hd_error
                (requests
                   (snd (Siniestros.handleSubmit StringToNumber res recarga st)))
              = Some match Siniestros.id_en_edicion (Siniestros.form st) with
                     | Some i =>
                         Siniestros.Put i
                           (Siniestros.payload_of StringToNumber
                              (Siniestros.form st))
                     | None =>
                         Siniestros.Post
                           (Siniestros.payload_of StringToNumber
                              (Siniestros.form st))
                     end).
  { unfold Siniestros.handleSubmit.
    destruct res; [ destruct recarga | ]; reflexivity. }
  rewrite H. clear H.
  unfold SiniestrosVista.titulo, SiniestrosVista.boton,
    Siniestros.id_en_edicion.
  destruct (Siniestros.f_id (Siniestros.form st)) as [i|].
  - destruct (Z.eqb_spec i 0) as [E0|N0].
    + right. subst i. repeat split; auto.
    + left. repeat split. exists i. repeat split; auto.
  - right. repeat split; auto.
Qed.

(** X14: the three counts of a payload are never [NaN]: each is a number
    that is either truthy or zero, whatever the draft holds and whatever the
    conversion makes of it. *)
Theorem payload_counts_are_never_NaN
    (StringToNumber : string -> JsNumber) (f : Siniestros.Form) :
  let p := Siniestros.payload_of StringToNumber f in
  let sound (v : JsVal) :=
    exists n, v = JNum n /\ n <> NaN /\ (truthy_num n = true \/ n = Fin 0) in
  sound (Siniestros.pl_victimas_fatales p) /\
  sound (Siniestros.pl_heridos p) /\
  sound (Siniestros.pl_num_vehiculos p).
Proof.
  cbv zeta.
  assert (K : forall n, exists m,
             JNum (or_else_num n (Fin 0)) = JNum m /\ m <> NaN /\
             (truthy_num m = true \/ m = Fin 0)).
  { intros n. unfold or_else_num. destruct (truthy_num n) eqn:E.
    - exists n. repeat split; auto. intros ->. discriminate E.
    - exists (Fin 0). repeat split; auto. discriminate. }
  cbn. repeat split; apply K.
Qed.

(** X15: a save that succeeds empties the draft whether or not the list
    can be read again afterwards.  When the reload resolves, the list is
    its body (empty when the body is missing) and no error is left; when
    the reload fails, the list stays as it was and the error box shows. *)
Theorem successful_save_resets_the_draft
    (StringToNumber : string -> JsNumber) (u : unit)
    (recarga : Settled (option (list Siniestros.Siniestro)) Siniestros.ApiError)
    (st : Siniestros.State) :
  let st' := fst (Siniestros.handleSubmit StringToNumber (Resolved u) recarga st) in
  Siniestros.form st' = Siniestros.form_inicial /\
  match recarga with
  | Resolved data =>
      Siniestros.siniestros st' = Siniestros.data_o_vacia data /\
      Siniestros.error st' = None
  | Rejected err =>
      Siniestros.siniestros st' = Siniestros.siniestros st /\
      Siniestros.error st' = Some (Siniestros.Excepcion err) /\
      Siniestros.error_visible st' <> None
  end.
Proof.
  cbv zeta. destruct recarga as [data|err]; cbn; repeat split.
  discriminate.
Qed.

(** X16: a removal.  On both pages, when the user does not confirm,
    nothing is sent and nothing changes; when the user confirms, the
    [delete] is sent, and the list is read again only if the [delete]
    resolved (on the crime-report page, for the filters of that moment).
    Confirmed or not, resolved or not, the draft of the form is never
    touched. *)
Theorem removal_asks_first_and_reloads_on_success
    (Err : Type) (id : Z) (confirmed : bool)
    (res : Settled unit Siniestros.ApiError)
    (recarga : Settled (option (list Siniestros.Siniestro)) Siniestros.ApiError)
    (st : Siniestros.State)
    (res' : Settled unit Err) (st' : ReportesDelito.State) :
  let out := Siniestros.handleDelete id confirmed res recarga st in
  let o := ReportesDelito.handleDelete id confirmed res' st' in
  (requests (snd out)
   = if confirmed
     then Siniestros.Delete id
          :: (if is_rejected res then [] else [Siniestros.GetSiniestros])
     else []) /\
  Siniestros.form (fst out) = Siniestros.form st /\
  (confirmed = false -> out = (st, [])) /\
  (requests (ReportesDelito.o_effects o)
   = if confirmed
     then ReportesDelito.Delete id
          :: (if is_rejected res' then []
              else [ReportesDelito.GetAll
                      (ReportesDelito.params_of (ReportesDelito.filtros st'))])
     else []) /\
  ReportesDelito.formData (ReportesDelito.o_state o)
  = ReportesDelito.formData st' /\
  ReportesDelito.showModal (ReportesDelito.o_state o)
  = ReportesDelito.showModal st' /\
  (confirmed = false -> o = ReportesDelito.done st').
Proof.
  cbv zeta. destruct confirmed; cbn.
  - destruct res as [u|e]; [ destruct recarga as [d|e] | ];
      destruct res' as [u'|e']; cbn; repeat split; discriminate.
  - repeat split.
Qed.

(** X17: the first load of the incident page is all or nothing.  When one
    of its three reads fails, none of the three lists is written, the ones
    that resolved included; the error box shows and loading ends.  When the
    three resolve, each list is the body of its read, and a body that is
    missing gives the empty list. *)
Theorem first_load_is_all_or_nothing
    (s : Settled (option (list Siniestros.Siniestro)) Siniestros.ApiError)
    (a t : Settled (option (list Siniestros.Referencia)) Siniestros.ApiError)
    (st : Siniestros.State) :
  let st' := fst (Siniestros.cargarDatosIniciales s a t st) in
  Siniestros.loading st' = false /\
  Siniestros.form st' = Siniestros.form st /\
  (is_rejected s || is_rejected a || is_rejected t = true ->
   Siniestros.siniestros st' = Siniestros.siniestros st /\
   Siniestros.avenidas st' = Siniestros.avenidas st /\
   Siniestros.tiposSiniestro st' = Siniestros.tiposSiniestro st /\
   Siniestros.error_visible st' <> None) /\
  (forall ds da dt,
     s = Resolved ds -> a = Resolved da -> t = Resolved dt ->
     Siniestros.siniestros st' = Siniestros.data_o_vacia ds /\
     Siniestros.avenidas st' = Siniestros.data_o_vacia da /\
     Siniestros.tiposSiniestro st' = Siniestros.data_o_vacia dt /\
     Siniestros.error st' = Siniestros.error st).
Proof.
  cbv zeta. destruct s as [ds|es], a as [da|ea], t as [dt|et]; cbn;
    repeat split; intros; try discriminate; try congruence;
    repeat match goal with
    | H : Resolved _ = Resolved _ |- _ => injection H as <-
    end; reflexivity.
Qed.

Lemma no_selection_shows_nothing (refs : list Siniestros.Referencia) :
  Siniestros.muestra_vacia refs (JStr "") = true.
Proof.
  unfold Siniestros.muestra_vacia, Siniestros.referencia_mostrada.
  rewrite (empty_selection_shows_nothing Siniestros.ref_id refs (JStr ""));
    reflexivity.
Qed.

(** X18: opening an incident with "Editar" and submitting the form as it
    is.  When no required control holds the form back (the incident has a
    date, and its street and its type are in the lists of the page) and the
    id is not zero, the first request of the form is the [put] of that id,
    with the street and the type of the incident when they are numbers,
    whatever the conversion of texts is, and with notes that are [null]
    when the incident had none.  When a required control holds the form
    back nothing is sent; that is so when the incident has no street, and
    when it has no date. *)
Theorem edit_then_save_an_incident
    (StringToNumber : string -> JsNumber)
    (res : Settled unit Siniestros.ApiError)
    (recarga : Settled (option (list Siniestros.Siniestro)) Siniestros.ApiError)
    (s : Siniestros.Siniestro) (st : Siniestros.State) :
  let st' := fst (Siniestros.handleEdit s st) in
  let sent :=
    requests (snd (Siniestros.form_onSubmit StringToNumber res recarga st')) in
  (Siniestros.primer_requerido_vacio st' = None ->
   Siniestros.id s <> 0%Z ->
   exists payload,
     hd_error sent = Some (Siniestros.Put (Siniestros.id s) payload) /\
     (forall a, Siniestros.avenida_id s = JNum a ->
                Siniestros.pl_avenida_id payload = JNum a) /\
     (forall t, Siniestros.tipo_id s = JNum t ->
                Siniestros.pl_tipo_id payload = JNum t) /\
     Siniestros.pl_observaciones payload
     = match Siniestros.observaciones s with
       | Some o => if string_is_empty o then JNull else JStr o
       | None => JNull
       end) /\
  (Siniestros.primer_requerido_vacio st' <> None -> sent = []) /\
  (truthy (Siniestros.avenida_id s) = false -> sent = []) /\
  (Siniestros.fecha s = None -> sent = []).
Proof.
  cbv zeta.
  assert (Held : Siniestros.primer_requerido_vacio
                   (fst (Siniestros.handleEdit s st)) <> None ->
                 requests
                   (snd (Siniestros.form_onSubmit StringToNumber res recarga
                           (fst (Siniestros.handleEdit s st)))) = []).
  { intros N. unfold Siniestros.form_onSubmit.
    destruct (Siniestros.primer_requerido_vacio _);
      [ reflexivity | contradiction ]. }
  split; [ | split; [ exact Held | split ] ].
  - intros V Hid.
    exists (Siniestros.payload_of StringToNumber
              (Siniestros.form (fst (Siniestros.handleEdit s st)))).
    split; [ | split; [ | split ] ].
    + unfold Siniestros.form_onSubmit. rewrite V.
      unfold Siniestros.handleSubmit. cbn.
      unfold Siniestros.id_en_edicion. cbn.
      destruct (Z.eqb_spec (Siniestros.id s) 0) as [E|_]; [ contradiction | ].
      destruct res; [ destruct recarga | ]; reflexivity.
    + intros a Ha. cbn. rewrite Ha. unfold or_else. cbn.
      destruct (truthy_num a) eqn:T; [ reflexivity | exfalso ].
      unfold Siniestros.primer_requerido_vacio in V. cbn in V.
      rewrite Ha in V. unfold or_else in V. cbn in V. rewrite T in V.
      rewrite no_selection_shows_nothing in V.
      destruct (string_is_empty _); discriminate V.
    + intros t Ht. cbn. rewrite Ht. unfold or_else. cbn.
      destruct (truthy_num t) eqn:T; [ reflexivity | exfalso ].
      unfold Siniestros.primer_requerido_vacio in V. cbn in V.
      rewrite Ht in V. unfold or_else in V. cbn in V. rewrite T in V.
      rewrite no_selection_shows_nothing in V.
      destruct (string_is_empty _); [ discriminate V | ].
      destruct (Siniestros.muestra_vacia _ _); discriminate V.
    + cbn. destruct (Siniestros.observaciones s) as [o|]; [ | reflexivity ].
      destruct o; reflexivity.
  - intros F. apply Held.
    unfold Siniestros.primer_requerido_vacio. cbn.
    unfold or_else. rewrite F. rewrite no_selection_shows_nothing.
    destruct (string_is_empty _); discriminate.
  - intros F. apply Held.
    unfold Siniestros.primer_requerido_vacio. cbn. rewrite F. discriminate.
Qed.

Lemma edit_then_save_an_incident_witness :
  let s := MasEscenarios.un_siniestro in
  let st' := fst (Siniestros.handleEdit s MasEscenarios.pagina_con_siniestro) in
  In s (Siniestros.siniestros MasEscenarios.pagina_con_siniestro) /\
  Siniestros.primer_requerido_vacio st' = None /\
  Siniestros.id s <> 0%Z /\
  exists payload,
    hd_error (requests
                (snd (Siniestros.form_onSubmit Escenarios.digitos
                        (Resolved tt) (Resolved None) st')))
    = Some (Siniestros.Put 7 payload) /\
    (forall a, Siniestros.avenida_id s = JNum a ->
               Siniestros.pl_avenida_id payload = JNum a) /\
    (forall t, Siniestros.tipo_id s = JNum t ->
               Siniestros.pl_tipo_id payload = JNum t) /\
    Siniestros.pl_observaciones payload = JNull.
Proof.
  cbv zeta.
  assert (N : Siniestros.id MasEscenarios.un_siniestro <> 0%Z)
    by (cbn; discriminate).
  split; [ left; reflexivity | ].
  split; [ reflexivity | ]. split; [ exact N | ].
  exact (proj1 (edit_then_save_an_incident Escenarios.digitos
                  (Resolved tt) (Resolved None)
                  MasEscenarios.un_siniestro MasEscenarios.pagina_con_siniestro)
           eq_refl N).
Defined.

(** X19: a save that succeeds on the crime-report page, whatever the page
    holds when the answer arrives: the modal closes, the draft is the initial
    one again with no report being edited, the error is cleared and loading
    starts, and exactly one request goes out, the list read built from the
    filters that [handleSubmit] saw when it was called, which need not be the
    filters of the page by then. *)
Theorem successful_save_closes_and_reloads
    (Err : Type) (u : unit) (filtros_seen : ReportesDelito.Filtros)
    (st : ReportesDelito.State) :
  let o := ReportesDelito.handleSubmit_settle (Err := Err) filtros_seen
             (Resolved u) st in
  let st' := ReportesDelito.o_state o in
  ReportesDelito.showModal st' = false /\
  ReportesDelito.formData st' = ReportesDelito.formData_inicial /\
  ReportesDelito.editingReporte st' = None /\
  ReportesDelito.error st' = None /\
  ReportesDelito.loading st' = true /\
  ReportesDelito.reportes st' = ReportesDelito.reportes st /\
  ReportesDelito.filtros st' = ReportesDelito.filtros st /\
  ReportesDelito.o_effects o
  = [Request (ReportesDelito.GetAll (ReportesDelito.params_of filtros_seen))] /\
  map ReportesDelito.aw_then (ReportesDelito.o_awaited o)
  = [ReportesDelito.AfterGetAll].
Proof. cbv zeta. cbn. repeat split. Qed.
